(** * Audiobook mastering: the compliance rule engine and its pipeline

    A shallow embedding of [mastering.py] (class [AudiobookProcessor]) and
    the properties of its analyze / remediate / re-analyze pipeline.

    Conventions of the embedding.
    - A Python [str] is a Rocq [string]; a character is read as the code
      point of its byte, so the model covers code points below 256.
    - The external collaborators (ffprobe and ffmpeg through
      [subprocess.run], the eyed3 tag library, the float parser and
      formatter, [os.makedirs]) are fields of a record [World]; a world
      answers a given command the same way each time it is asked.
    - An exception is represented by its text [str(e)].
    - Methods that only read [self] are functions of [self]; methods that
      assign to [self] return the new object state. *)

From Stdlib Require Import ZArith List String Ascii Bool Lia.
From Stdlib Require Import DecimalString.
From Stdlib Require Import Floats.PrimFloat Uint63.
Import ListNotations.
Open Scope string_scope.
Open Scope Z_scope.

(* ===================================================================== *)
(** ** Python built-ins used by the program *)
(* ===================================================================== *)

Module Py.

Definition code (c : ascii) : N := N_of_ascii c.

Definition between (lo hi : N) (c : ascii) : bool :=
  ((lo <=? code c) && (code c <=? hi))%N.

(** [str.isdigit] on one character: the decimal digits and the
    superscripts U+00B2, U+00B3, U+00B9. *)
Definition isdigit (c : ascii) : bool :=
  between 48 57 c || (code c =? 178)%N || (code c =? 179)%N || (code c =? 185)%N.

(** [str.isspace] on one character. *)
Definition isspace (c : ascii) : bool :=
  between 9 13 c || between 28 32 c || (code c =? 133)%N || (code c =? 160)%N.

Definition lower_char (c : ascii) : ascii :=
  if between 65 90 c || (between 192 222 c && negb (code c =? 215)%N)
  then ascii_of_N (code c + 32) else c.

(** [str.lower]. *)
Fixpoint lower (s : string) : string :=
  match s with
  | EmptyString => EmptyString
  | String c s' => String (lower_char c) (lower s')
  end.

(** [str.upper]; the program applies it to the layout names only, so the
    three code points whose upper case leaves the one-byte range (181,
    223, 255) are left as they are. *)
Definition upper_char (c : ascii) : ascii :=
  if between 97 122 c || (between 224 254 c && negb (code c =? 247)%N)
  then ascii_of_N (code c - 32) else c.

Fixpoint upper (s : string) : string :=
  match s with
  | EmptyString => EmptyString
  | String c s' => String (upper_char c) (upper s')
  end.

(** [s.startswith(p)]. *)
Fixpoint startswith (p s : string) : bool :=
  match p with
  | EmptyString => true
  | String a p' =>
      match s with
      | EmptyString => false
      | String b s' => (a =? b)%char && startswith p' s'
      end
  end.

(** [t in s] for strings. *)
Fixpoint contains (t s : string) : bool :=
  startswith t s ||
  match s with
  | EmptyString => false
  | String _ s' => contains t s'
  end.

(** [s.endswith(suffix)]. *)
Fixpoint endswith (suffix s : string) : bool :=
  (s =? suffix)%string ||
  match s with
  | EmptyString => false
  | String _ s' => endswith suffix s'
  end.

Fixpoint lstrip (s : string) : string :=
  match s with
  | EmptyString => EmptyString
  | String c s' => if isspace c then lstrip s' else s
  end.

Fixpoint rstrip (s : string) : string :=
  match s with
  | EmptyString => EmptyString
  | String c s' =>
      match rstrip s' with
      | EmptyString => if isspace c then EmptyString else String c EmptyString
      | r => String c r
      end
  end.

(** [str.strip()] with no argument. *)
Definition strip (s : string) : string := rstrip (lstrip s).

(** [any(char.isdigit() for char in s)]. *)
Fixpoint any_isdigit (s : string) : bool :=
  match s with
  | EmptyString => false
  | String c s' => isdigit c || any_isdigit s'
  end.

Definition digit_val (c : ascii) : option Z :=
  if between 48 57 c then Some (Z.of_N (code c) - 48) else None.

(** The digits of a decimal literal: single underscores may stand between
    digits. *)
Fixpoint int_digits (s : string) (acc : Z) (after_digit : bool) : option Z :=
  match s with
  | EmptyString => if after_digit then Some acc else None
  | String c s' =>
      match digit_val c with
      | Some d => int_digits s' (10 * acc + d) true
      | None =>
          if (c =? "_")%char && after_digit then int_digits s' acc false else None
      end
  end.

(** [int(s)] in base ten; [None] stands for [ValueError].  The
    interpreter's optional limit on the number of digits is not
    modelled. *)
Definition int (s : string) : option Z :=
  match strip s with
  | String "+" r => int_digits r 0 false
  | String "-" r => option_map Z.opp (int_digits r 0 false)
  | r => int_digits r 0 false
  end.

(** [str(n)] and [f"{n}"] for an integer. *)
Definition str_of_int (n : Z) : string := NilZero.string_of_int (Z.to_int n).

(** [sep.join(parts)]. *)
Definition join (sep : string) (parts : list string) : string :=
  String.concat sep parts.

End Py.

(* ===================================================================== *)
(** ** [os.path], as [posixpath] has it *)
(* ===================================================================== *)

Module OsPath.

(** [s.rpartition(ch)] when [ch] occurs: the text before and after the
    last occurrence. *)
Fixpoint rpartition (ch : ascii) (s : string) : option (string * string) :=
  match s with
  | EmptyString => None
  | String c s' =>
      match rpartition ch s' with
      | Some (a, b) => Some (String c a, b)
      | None => if (c =? ch)%char then Some (EmptyString, s') else None
      end
  end.

Fixpoint all_char (ch : ascii) (s : string) : bool :=
  match s with
  | EmptyString => true
  | String c s' => (c =? ch)%char && all_char ch s'
  end.

Fixpoint rstrip_char (ch : ascii) (s : string) : string :=
  match s with
  | EmptyString => EmptyString
  | String c s' =>
      match rstrip_char ch s' with
      | EmptyString => if (c =? ch)%char then EmptyString else String c EmptyString
      | r => String c r
      end
  end.

Definition basename (p : string) : string :=
  match rpartition "/" p with
  | Some (_, b) => b
  | None => p
  end.

Definition dirname (p : string) : string :=
  match rpartition "/" p with
  | Some (a, _) =>
      let head := a ++ "/" in
      if all_char "/" head then head else rstrip_char "/" head
  | None => EmptyString
  end.

(** [splitext]: the extension starts at the last dot of the last path
    component, unless only dots precede it there. *)
Definition splitext (p : string) : string * string :=
  let '(head, name) :=
    match rpartition "/" p with
    | Some (a, b) => (a ++ "/", b)
    | None => (EmptyString, p)
    end in
  match rpartition "." name with
  | Some (stem, ext) =>
      if all_char "." stem then (p, EmptyString)
      else (head ++ stem, String "." ext)
  | None => (p, EmptyString)
  end.

Definition join (a b : string) : string :=
  if Py.startswith "/" b then b
  else if (a =? "")%string || Py.endswith "/" a then a ++ b
  else a ++ "/" ++ b.

End OsPath.

(* ===================================================================== *)
(** ** The external collaborators *)
(* ===================================================================== *)

(** What a call of [subprocess.run] does: it raises (the program is not
    found, the output cannot be decoded), or the process exits. *)
Inductive Completed :=
| Raises (text : string)
| Exits (returncode : Z) (stdout stderr : string).

(** What [eyed3.load(path)] followed by [.info.mode] gives. *)
Inductive Eyed3File :=
| LoadRaises
| LoadNothing
| LoadMode (mode : string).

Record World := {
  subprocess_run : list string -> Completed;
  (** [str(e)] of the [CalledProcessError] that [check=True] raises *)
  called_process_error : list string -> Z -> string;
  (** [float(s)]: the text of the [ValueError], or the number *)
  float_of_str : string -> string + float;
  (** [f"{x:.2f}"] *)
  format_2f : float -> string;
  eyed3_load : string -> Eyed3File;
  (** [os.makedirs(d, exist_ok=True)]: [Some text] when it raises *)
  makedirs : string -> option string
}.

(** [subprocess.run(cmd, capture_output=True, text=True, check=True)
    .stdout]: [inl] is the text of the exception raised. *)
Definition check_output (w : World) (cmd : list string) : string + string :=
  match subprocess_run w cmd with
  | Raises text => inl text
  | Exits returncode stdout _ =>
      if returncode =? 0 then inr stdout
      else inl (called_process_error w cmd returncode)
  end.

(* ===================================================================== *)
(** ** The data model *)
(* ===================================================================== *)

Record AudioRequirements := {
  min_rms : Z;
  max_rms : Z;
  max_peak : Z;
  max_noise_floor : Z;
  max_room_tone : Z;
  min_bitrate : Z;
  required_sample_rate : Z;
  max_duration : float
}.

(** [self.audio_requirements], set once in [__init__]. *)
Definition audio_requirements : AudioRequirements := {|
  min_rms := -23;
  max_rms := -18;
  max_peak := -3;
  max_noise_floor := -60;
  max_room_tone := 5;
  min_bitrate := 192;
  required_sample_rate := 44100;
  max_duration := 120%float
|}.

(** The two values [get_audio_channel_format] returns. *)
Inductive ChannelFormat := Mono | Stereo.

Definition format_name (c : ChannelFormat) : string :=
  match c with Mono => "mono" | Stereo => "stereo" end.

Definition format_eqb (a b : ChannelFormat) : bool :=
  match a, b with
  | Mono, Mono | Stereo, Stereo => true
  | _, _ => false
  end.

(** The [results] dictionary of one analysis; a key that may be absent
    is an [option]. *)
Record Results := {
  filename : string;
  issues : list string;
  compliant : bool;
  duration_minutes : option float;
  bitrate : option Z;
  sample_rate : option Z;
  channels : option ChannelFormat;
  file_format : option string
}.

Definition new_results (name : string) : Results := {|
  filename := name;
  issues := [];
  compliant := true;
  duration_minutes := None;
  bitrate := None;
  sample_rate := None;
  channels := None;
  file_format := None
|}.

(** [results['issues'].append(issue); results['compliant'] = False] *)
Definition add_issue (issue : string) (r : Results) : Results := {|
  filename := filename r;
  issues := issues r ++ [issue];
  compliant := false;
  duration_minutes := duration_minutes r;
  bitrate := bitrate r;
  sample_rate := sample_rate r;
  channels := channels r;
  file_format := file_format r
|}.

Definition set_duration_minutes (d : float) (r : Results) : Results := {|
  filename := filename r;
  issues := issues r;
  compliant := compliant r;
  duration_minutes := Some d;
  bitrate := bitrate r;
  sample_rate := sample_rate r;
  channels := channels r;
  file_format := file_format r
|}.

Definition set_bitrate (b : Z) (r : Results) : Results := {|
  filename := filename r;
  issues := issues r;
  compliant := compliant r;
  duration_minutes := duration_minutes r;
  bitrate := Some b;
  sample_rate := sample_rate r;
  channels := channels r;
  file_format := file_format r
|}.

Definition set_sample_rate (s : Z) (r : Results) : Results := {|
  filename := filename r;
  issues := issues r;
  compliant := compliant r;
  duration_minutes := duration_minutes r;
  bitrate := bitrate r;
  sample_rate := Some s;
  channels := channels r;
  file_format := file_format r
|}.

Definition set_channels (c : ChannelFormat) (r : Results) : Results := {|
  filename := filename r;
  issues := issues r;
  compliant := compliant r;
  duration_minutes := duration_minutes r;
  bitrate := bitrate r;
  sample_rate := sample_rate r;
  channels := Some c;
  file_format := file_format r
|}.

Definition set_file_format (f : string) (r : Results) : Results := {|
  filename := filename r;
  issues := issues r;
  compliant := compliant r;
  duration_minutes := duration_minutes r;
  bitrate := bitrate r;
  sample_rate := sample_rate r;
  channels := channels r;
  file_format := Some f
|}.

(** The attributes of [self] that the pipeline assigns.  [reports] is a
    Python dictionary: keys in insertion order, one entry per key. *)
Record Processor := {
  audio_files : list string;
  reports : list (string * Results);
  target_channel_format : option ChannelFormat;
  output_dir : option string
}.

(** [__init__]; the metadata dictionary and the prompts that fill it play
    no part in the analysis and are left out. *)
Definition init : Processor := {|
  audio_files := [];
  reports := [];
  target_channel_format := None;
  output_dir := None
|}.

(** [d[k] = v]: a present key keeps its place. *)
Fixpoint dict_set {V : Type} (d : list (string * V)) (k : string) (v : V)
  : list (string * V) :=
  match d with
  | [] => [(k, v)]
  | (k', v') :: d' =>
      if (k' =? k)%string then (k, v) :: d' else (k', v') :: dict_set d' k v
  end.

(** A mutation [f] of the object stored under [k], seen through the
    dictionary. *)
Fixpoint dict_update {V : Type} (d : list (string * V)) (k : string) (f : V -> V)
  : list (string * V) :=
  match d with
  | [] => []
  | (k', v') :: d' =>
      if (k' =? k)%string then (k', f v') :: d' else (k', v') :: dict_update d' k f
  end.

(* ===================================================================== *)
(** ** A [try] block over the [results] dictionary *)
(* ===================================================================== *)

(** A statement of the [try] block: it may raise ([inl], the exception's
    text), and what it did to [results] before stays done. *)
Definition Try (A : Type) : Type := Results -> (string + A) * Results.

Definition ret {A : Type} (a : A) : Try A := fun r => (inr a, r).

Definition bind {A B : Type} (c : Try A) (k : A -> Try B) : Try B :=
  fun r =>
    match c r with
    | (inl e, r') => (inl e, r')
    | (inr a, r') => k a r'
    end.

(** A call that returns or raises and leaves [results] alone. *)
Definition call {A : Type} (x : string + A) : Try A := fun r => (x, r).

(** An update of [results]. *)
Definition update (f : Results -> Results) : Try unit := fun r => (inr tt, f r).

Definition when (b : bool) (c : Try unit) : Try unit := if b then c else ret tt.

Declare Scope try_scope.
Delimit Scope try_scope with try.
Notation "x <- c ;; k" := (bind c (fun x => k))
  (at level 61, c at next level, right associativity) : try_scope.
Notation "c ;; k" := (bind c (fun _ => k))
  (at level 61, right associativity) : try_scope.

(* ===================================================================== *)
(** ** [get_audio_channel_format] and [determine_target_channel_format] *)
(* ===================================================================== *)

Definition ffprobe_stream (entry file_path : string) : list string :=
  ["ffprobe"; "-v"; "error"; "-select_streams"; "a:0";
   "-show_entries"; "stream=" ++ entry; "-of"; "csv=p=0"; file_path].

Definition ffprobe_duration (file_path : string) : list string :=
  ["ffprobe"; "-v"; "error";
   "-show_entries"; "format=duration"; "-of"; "csv=p=0"; file_path].

(** The [except] branch of [get_audio_channel_format]: eyed3, and mono
    when that fails too. *)
Definition eyed3_channel_format (w : World) (file_path : string) : ChannelFormat :=
  match eyed3_load w file_path with
  | LoadMode mode => if (mode =? "Stereo")%string then Stereo else Mono
  | LoadNothing => Mono
  | LoadRaises => Mono
  end.

Definition get_audio_channel_format (w : World) (file_path : string) : ChannelFormat :=
  match check_output w (ffprobe_stream "channels" file_path) with
  | inr stdout =>
      match Py.int (Py.strip stdout) with
      | Some channels => if 1 <? channels then Stereo else Mono
      | None => eyed3_channel_format w file_path
      end
  | inl _ => eyed3_channel_format w file_path
  end.

Definition set_target_channel_format (t : option ChannelFormat) (self : Processor)
  : Processor := {|
  audio_files := audio_files self;
  reports := reports self;
  target_channel_format := t;
  output_dir := output_dir self
|}.

Definition set_reports (r : list (string * Results)) (self : Processor)
  : Processor := {|
  audio_files := audio_files self;
  reports := r;
  target_channel_format := target_channel_format self;
  output_dir := output_dir self
|}.

Definition set_audio_files (fs : list string) (self : Processor) : Processor := {|
  audio_files := fs;
  reports := reports self;
  target_channel_format := target_channel_format self;
  output_dir := output_dir self
|}.

Definition set_output_dir (d : option string) (self : Processor) : Processor := {|
  audio_files := audio_files self;
  reports := reports self;
  target_channel_format := target_channel_format self;
  output_dir := d
|}.

(** The state after the call and the value returned. *)
Definition determine_target_channel_format (w : World) (self : Processor)
  : Processor * option ChannelFormat :=
  match audio_files self with
  | [] => (self, None)
  | first_file :: _ =>
      let channel_format := get_audio_channel_format w first_file in
      (set_target_channel_format (Some channel_format) self, Some channel_format)
  end.

(* ===================================================================== *)
(** ** [analyze_audio_file]: the compliance rule engine *)
(* ===================================================================== *)

(** A character of the class [[a-zA-Z0-9_\- ]]. *)
Definition filename_char (c : ascii) : bool :=
  Py.between 97 122 c || Py.between 65 90 c || Py.between 48 57 c
  || (c =? "_")%char || (c =? "-")%char || (c =? " ")%char.

(** What may follow the first character for [[class]+$] to match: more
    characters of the class, then the end of the string or one newline
    that ends it ([$] without [re.MULTILINE]). *)
Fixpoint filename_rest (s : string) : bool :=
  match s with
  | EmptyString => true
  | String c s' =>
      (filename_char c && filename_rest s')
      || ((c =? "010")%char && (s' =? "")%string)
  end.

(** [re.match(r'^[a-zA-Z0-9_\- ]+$', s)] is not [None]. *)
Definition re_match_filename (s : string) : bool :=
  match s with
  | EmptyString => false
  | String c s' => filename_char c && filename_rest s'
  end.

Definition chapter_indicators : list string :=
  ["chapter"; "ch"; "section"; "part"; "prologue"; "epilogue"; "introduction";
   "foreword"; "afterword"; "appendix"; "credits"; "acknowledgments"; "title";
   "dedication"].

Definition special_characters_issue : string :=
  "Filename contains special characters. Use only standard US alphabetical/numeric characters.".

Definition chapter_information_issue : string :=
  "Filename does not appear to include chapter or section information (e.g., 'Chapter 1', 'Prologue')".

Definition duration_issue (w : World) (duration_minutes : float) : string :=
  "File duration (" ++ format_2f w duration_minutes
  ++ " minutes) exceeds maximum allowed length (120 minutes). "
  ++ "Split longer sections into separate files and include a secondary header for continuity.".

Definition bitrate_issue (bitrate : Z) : string :=
  "Bitrate is " ++ Py.str_of_int bitrate ++ "kbps, must be at least "
  ++ Py.str_of_int (min_bitrate audio_requirements) ++ "kbps CBR".

Definition sample_rate_issue (sample_rate : Z) : string :=
  "Sample rate is " ++ Py.str_of_int sample_rate ++ "Hz, must be "
  ++ Py.str_of_int (required_sample_rate audio_requirements) ++ "Hz".

Definition wav_issue : string := "WAV format needs conversion to MP3".

Definition normalization_issue : string :=
  "Audio levels need to be checked and normalized".

Definition analysis_error_issue (e : string) : string :=
  "Error analyzing file: " ++ e.

(** [os.path.splitext(os.path.basename(file_path))[0]] *)
Definition filename_without_ext (file_path : string) : string :=
  fst (OsPath.splitext (OsPath.basename file_path)).

(** [any(indicator in name.lower() for indicator in chapter_indicators)] *)
Definition has_chapter_indicator (name : string) : bool :=
  existsb (fun indicator => Py.contains indicator (Py.lower name)) chapter_indicators.

(** The two filename checks, which stand before the [try] block. *)
Definition check_filename (file_path : string) (results : Results) : Results :=
  let name := filename_without_ext file_path in
  let results :=
    if negb (re_match_filename name)
    then add_issue special_characters_issue results else results in
  if negb (has_chapter_indicator name) && negb (Py.any_isdigit name)
  then add_issue chapter_information_issue results else results.

(** [int(stdout.strip())] under [except (ValueError, TypeError)], with the
    value the handler assigns. *)
Definition int_or_zero (stdout : string) : Z :=
  match Py.int (Py.strip stdout) with
  | Some n => n
  | None => 0
  end.

(** The body of the [try] block. *)
Definition probe_block (w : World) (file_path : string) : Try unit :=
  (duration_result <- call (check_output w (ffprobe_duration file_path)) ;;
   duration_seconds <- call (float_of_str w (Py.strip duration_result)) ;;
   let duration_minutes := (duration_seconds / 60)%float in
   update (set_duration_minutes duration_minutes) ;;
   when (max_duration audio_requirements <? duration_minutes)%float
        (update (add_issue (duration_issue w duration_minutes))) ;;
   bitrate_result <- call (check_output w (ffprobe_stream "bit_rate" file_path)) ;;
   let bitrate :=
     match Py.int (Py.strip bitrate_result) with
     | Some n => n / 1000
     | None => 0
     end in
   update (set_bitrate bitrate) ;;
   when (bitrate <? min_bitrate audio_requirements)
        (update (add_issue (bitrate_issue bitrate))) ;;
   sample_rate_result <- call (check_output w (ffprobe_stream "sample_rate" file_path)) ;;
   let sample_rate := int_or_zero sample_rate_result in
   update (set_sample_rate sample_rate) ;;
   when (negb (sample_rate =? required_sample_rate audio_requirements))
        (update (add_issue (sample_rate_issue sample_rate))) ;;
   let channel_format := get_audio_channel_format w file_path in
   update (set_channels channel_format) ;;
   when (Py.endswith ".wav" (Py.lower file_path))
        (update (set_file_format "wav") ;;
         update (add_issue wav_issue)) ;;
   update (add_issue normalization_issue))%try.

Definition analyze_audio_file (w : World) (file_path : string) : Results :=
  let results := new_results (OsPath.basename file_path) in
  let results := check_filename file_path results in
  match probe_block w file_path results with
  | (inr _, results) => results
  | (inl e, results) => add_issue (analysis_error_issue e) results
  end.

(* ===================================================================== *)
(** ** [process_files]: the analysis pass and its summary *)
(* ===================================================================== *)

Definition channel_issue (current_format target : ChannelFormat) : string :=
  "Channel format: " ++ format_name current_format
  ++ ", needs conversion to " ++ format_name target.

(** The body of the analysis loop.  [results] is stored in [self.reports]
    first and changed afterwards, through the same object. *)
Definition analyze_step (w : World) (self : Processor) (file_path : string)
  : Processor :=
  let results := analyze_audio_file w file_path in
  let self := set_reports (dict_set (reports self) file_path results) self in
  match target_channel_format self with
  | Some target =>
      let current_format := get_audio_channel_format w file_path in
      if negb (format_eqb current_format target)
      then set_reports
             (dict_update (reports self) file_path
                (add_issue (channel_issue current_format target))) self
      else self
  | None => self
  end.

(** [sum(1 for results in self.reports.values() if results['compliant'])] *)
Definition compliant_count (reports : list (string * Results)) : nat :=
  List.length (filter (fun kv => compliant (snd kv)) reports).

Definition non_compliant_count (reports : list (string * Results)) : nat :=
  (List.length reports - compliant_count reports)%nat.

(** The [issue_categories] dictionary. *)
Module IssueCategories.

Record t := {
  audio_level : nat;
  peak_level : nat;
  noise_floor : nat;
  room_tone : nat;
  format : nat;
  duration : nat;
  filename : nat
}.

Definition zero : t := {|
  audio_level := 0; peak_level := 0; noise_floor := 0; room_tone := 0;
  format := 0; duration := 0; filename := 0
|}.

Definition total (c : t) : nat :=
  (audio_level c + peak_level c + noise_floor c + room_tone c
   + format c + duration c + filename c)%nat.

End IssueCategories.

(** [any(term in issue.lower() for term in terms)] *)
Definition any_term (terms : list string) (issue : string) : bool :=
  existsb (fun term => Py.contains term (Py.lower issue)) terms.

(** The [if] / [elif] chain run on one issue. *)
Definition count_issue (c : IssueCategories.t) (issue : string) : IssueCategories.t :=
  let 'IssueCategories.Build_t al pk nf rt fm du fn := c in
  if any_term ["rms"; "volume"; "levels"; "normalize"] issue
  then IssueCategories.Build_t (S al) pk nf rt fm du fn
  else if Py.contains "peak" (Py.lower issue)
  then IssueCategories.Build_t al (S pk) nf rt fm du fn
  else if Py.contains "noise floor" (Py.lower issue)
  then IssueCategories.Build_t al pk (S nf) rt fm du fn
  else if Py.contains "room tone" (Py.lower issue) || Py.contains "silence" (Py.lower issue)
  then IssueCategories.Build_t al pk nf (S rt) fm du fn
  else if any_term ["bitrate"; "sample rate"; "cbr"; "channels"; "wav"] issue
  then IssueCategories.Build_t al pk nf rt (S fm) du fn
  else if Py.contains "duration" (Py.lower issue) || Py.contains "minutes" (Py.lower issue)
  then IssueCategories.Build_t al pk nf rt fm (S du) fn
  else if Py.contains "filename" (Py.lower issue) || Py.contains "chapter" (Py.lower issue)
  then IssueCategories.Build_t al pk nf rt fm du (S fn)
  else c.

(** The loop over one report: nothing is counted for a compliant one. *)
Definition count_results (c : IssueCategories.t) (results : Results)
  : IssueCategories.t :=
  if negb (compliant results) then fold_left count_issue (issues results) c else c.

Definition issue_categories (reports : list (string * Results)) : IssueCategories.t :=
  fold_left (fun c kv => count_results c (snd kv)) reports IssueCategories.zero.

(** What the summary prints: files analyzed, compliant, non-compliant, and
    the category counts. *)
Record Summary := {
  total_files : nat;
  compliant_files : nat;
  non_compliant_files : nat;
  categories : IssueCategories.t
}.

Definition summary (reports : list (string * Results)) : Summary := {|
  total_files := List.length reports;
  compliant_files := compliant_count reports;
  non_compliant_files := non_compliant_count reports;
  categories := issue_categories reports
|}.

Definition process_files (w : World) (self : Processor) : Processor :=
  match audio_files self with
  | [] => self
  | _ :: _ =>
      let self := fst (determine_target_channel_format w self) in
      fold_left (analyze_step w) (audio_files self) self
  end.

(* ===================================================================== *)
(** ** [process_audio] and [process_all_files]: remediation *)
(* ===================================================================== *)

Definition ffmpeg_command (file_path channel_arg output_path : string) : list string :=
  ["ffmpeg"; "-y"; "-i"; file_path;
   "-af"; "loudnorm=I=-20:LRA=7:TP=-3,aformat=channel_layouts=" ++ channel_arg;
   "-c:a"; "libmp3lame";
   "-b:a"; Py.str_of_int (min_bitrate audio_requirements) ++ "k";
   "-ar"; Py.str_of_int (required_sample_rate audio_requirements);
   output_path].

(** The name of the output file and the fixes known before encoding. *)
Definition output_name (file_path : string) : string * list string :=
  let file_name := OsPath.basename file_path in
  let file_extension := Py.lower (snd (OsPath.splitext file_name)) in
  if (file_extension =? ".wav")%string
  then (fst (OsPath.splitext file_name) ++ ".mp3", ["Converted from WAV to MP3 format"])
  else (file_name, []).

(** [channel_arg]: mono only when that is the target. *)
Definition channel_arg (self : Processor) : string :=
  match target_channel_format self with
  | Some Mono => "1"
  | _ => "2"
  end.

(** The command [cmd] that [process_audio] runs for a file. *)
Definition encode_command (self : Processor) (file_path output_dir : string)
  : list string :=
  ffmpeg_command file_path (channel_arg self)
    (OsPath.join output_dir (fst (output_name file_path))).

(** The tuple [(success, message, output_path)].  [apply_metadata] writes
    tags to the output file and catches its own exceptions; its result is
    not used. *)
Definition process_audio (w : World) (self : Processor) (file_path output_dir : string)
  : bool * string * option string :=
  let '(file_name, issues_fixed) := output_name file_path in
  let output_path := OsPath.join output_dir file_name in
  let current_format := get_audio_channel_format w file_path in
  let needs_channel_conversion :=
    match target_channel_format self with
    | Some target => negb (format_eqb current_format target)
    | None => false
    end in
  let issues_fixed :=
    if needs_channel_conversion
    then (issues_fixed
          ++ [("Converted from " ++ Py.upper (format_name current_format) ++ " to "
               ++ Py.upper (match target_channel_format self with
                            | Some target => format_name target
                            | None => EmptyString
                            end))%string])%list
    else issues_fixed in
  match subprocess_run w (encode_command self file_path output_dir) with
  | Raises e => (false, "Error processing audio: " ++ e, None)
  | Exits returncode _ stderr =>
      if negb (returncode =? 0)
      then (false, "Error running ffmpeg: " ++ stderr, None)
      else
        let issues_fixed :=
          (issues_fixed ++ ["Normalized audio levels to meet Audible requirements"])%list in
        match issues_fixed with
        | [] => (true, "Audio meets requirements, no processing needed", Some output_path)
        | _ => (true, "Processed audio: " ++ Py.join "; " issues_fixed, Some output_path)
        end
  end.

(** The body of the remediation loop: [processed_files] grows by the
    output of a successful call ([if success and output_path]: an empty
    path counts as none). *)
Definition remediate_step (w : World) (self : Processor) (output_dir : string)
  (processed_files : list string) (file_path : string) : list string :=
  match process_audio w self file_path output_dir with
  | (true, _, Some output_path) =>
      if (output_path =? "")%string then processed_files
      else (processed_files ++ [output_path])%list
  | _ => processed_files
  end.

Definition default_output_dir (first_file : string) : string :=
  let parent_dir := OsPath.dirname first_file in
  OsPath.join parent_dir (OsPath.basename parent_dir ++ "_master").

Definition chosen_output_dir (first_file : string) (output_dir : option string) : string :=
  match output_dir with
  | Some d => d
  | None => default_output_dir first_file
  end.

(** The remediation loop: [processed_files] when it ends. *)
Definition remediate_all (w : World) (self : Processor) (output_dir : string)
  (files : list string) : list string :=
  fold_left (remediate_step w self output_dir) files [].

(** [None] when [os.makedirs] raises: nothing in the program catches it
    before the top level, which exits. *)
Definition process_all_files (w : World) (self : Processor) (output_dir : option string)
  : option Processor :=
  match audio_files self with
  | [] => Some self
  | first_file :: _ =>
      let output_dir := chosen_output_dir first_file output_dir in
      let self := set_output_dir (Some output_dir) self in
      match makedirs w output_dir with
      | Some _ => None
      | None =>
          match remediate_all w self output_dir (audio_files self) with
          | [] => Some self
          | processed_files =>
              Some (process_files w (set_reports [] (set_audio_files processed_files self)))
          end
      end
  end.

(* ===================================================================== *)
(** ** [generate_report] and [main] *)
(* ===================================================================== *)

(** One "File:" section of the written report: the base name, the status,
    and the issues listed under it. *)
Record FileSection := {
  section_file : string;
  section_compliant : bool;
  section_issues : list string
}.

Record Report := {
  report_total : nat;
  report_compliant : nat;
  report_non_compliant : nat;
  report_sections : list FileSection
}.

Definition file_section (kv : string * Results) : FileSection := {|
  section_file := OsPath.basename (fst kv);
  section_compliant := compliant (snd kv);
  section_issues := if negb (compliant (snd kv)) then issues (snd kv) else []
|}.

(** The contents of the detailed report; [None] when there is nothing to
    report.  The layout of the text is left out. *)
Definition generate_report (self : Processor) : option Report :=
  match reports self with
  | [] => None
  | _ :: _ =>
      Some {|
        report_total := List.length (reports self);
        report_compliant := compliant_count (reports self);
        report_non_compliant := non_compliant_count (reports self);
        report_sections := map file_section (reports self)
      |}
  end.

(** [main] from the files that [get_input_directory] found (it returns
    only with at least one) to the state the report is written from. *)
Definition main (w : World) (files : list string) : option Processor :=
  let processor := set_audio_files files init in
  let processor := process_files w processor in
  process_all_files w processor None.

(* ===================================================================== *)
(** ** Worlds built from a table of media files *)
(* ===================================================================== *)

(** What the tools say about one path: the text ffprobe prints for each
    entry, and how ffmpeg exits when the path is its input. *)
Record Media := {
  media_path : string;
  duration_text : string;
  bit_rate_text : string;
  sample_rate_text : string;
  channels_text : string;
  encode_status : Z;
  encode_stderr : string
}.

Fixpoint find_media (path : string) (table : list Media) : option Media :=
  match table with
  | [] => None
  | m :: table' =>
      if (media_path m =? path)%string then Some m else find_media path table'
  end.

Definition table_run (table : list Media) (cmd : list string) : Completed :=
  match cmd with
  | "ffprobe" :: _ =>
      let path := last cmd EmptyString in
      match find_media path table with
      | None => Exits 1 EmptyString (path ++ ": No such file or directory")
      | Some m =>
          if existsb (String.eqb "format=duration") cmd
          then Exits 0 (duration_text m) EmptyString
          else if existsb (String.eqb "stream=bit_rate") cmd
          then Exits 0 (bit_rate_text m) EmptyString
          else if existsb (String.eqb "stream=sample_rate") cmd
          then Exits 0 (sample_rate_text m) EmptyString
          else Exits 0 (channels_text m) EmptyString
      end
  | "ffmpeg" :: _ =>
      match find_media (nth 3 cmd EmptyString) table with
      | None => Exits 1 EmptyString "No such file or directory"
      | Some m => Exits (encode_status m) EmptyString (encode_stderr m)
      end
  | _ => Raises "No such file or directory"
  end.

Definition table_called_process_error (cmd : list string) (returncode : Z) : string :=
  "Command '[" ++ Py.join ", " (map (fun a => "'" ++ a ++ "'") cmd)
  ++ "]' returned non-zero exit status " ++ Py.str_of_int returncode ++ ".".

(** The float parser of the table worlds reads whole numbers of seconds
    below 2^63; their formatter knows the one value the examples print. *)
Definition table_float_of_str (s : string) : string + float :=
  match Py.int s with
  | Some n =>
      if (0 <=? n) && (n <? 2 ^ 63) then inr (of_uint63 (Uint63.of_Z n))
      else inl ("could not convert string to float: '" ++ s ++ "'")
  | None => inl ("could not convert string to float: '" ++ s ++ "'")
  end.

Definition table_format_2f (x : float) : string :=
  if (x =? 150)%float then "150.00" else "0.00".

Definition table_world (table : list Media) : World := {|
  subprocess_run := table_run table;
  called_process_error := table_called_process_error;
  float_of_str := table_float_of_str;
  format_2f := table_format_2f;
  eyed3_load := fun _ => LoadRaises;
  makedirs := fun _ => None
|}.

Definition media (path duration bit_rate sample_rate channels : string) : Media := {|
  media_path := path;
  duration_text := duration;
  bit_rate_text := bit_rate;
  sample_rate_text := sample_rate;
  channels_text := channels;
  encode_status := 0;
  encode_stderr := EmptyString
|}.

Definition failing_encode (m : Media) (stderr : string) : Media := {|
  media_path := media_path m;
  duration_text := duration_text m;
  bit_rate_text := bit_rate_text m;
  sample_rate_text := sample_rate_text m;
  channels_text := channels_text m;
  encode_status := 1;
  encode_stderr := stderr
|}.

Definition chapter_1_wav : Media :=
  media "book/01_Chapter_1.wav" "600" "128000" "48000" "2".
Definition chapter_2_mp3 : Media :=
  media "book/02_Chapter_2.mp3" "900" "256000" "44100" "1".
Definition chapter_1_master : Media :=
  media "book/book_master/01_Chapter_1.mp3" "600" "192000" "44100" "2".
Definition chapter_2_master : Media :=
  media "book/book_master/02_Chapter_2.mp3" "900" "192000" "44100" "2".

(** A file whose duration ffprobe prints as N/A, a file for which it
    prints neither bit rate nor sample rate nor channel count, and a file
    one bit per second short of 192 kbps. *)
Definition chapter_3_no_duration : Media :=
  media "book/03_Chapter_3.mp3" "N/A" "192000" "44100" "2".
Definition chapter_5_no_stream_entries : Media :=
  media "book/05_Chapter_5.mp3" "600" "N/A" "N/A" "N/A".
Definition chapter_6_low_bit_rate : Media :=
  media "book/06_Chapter_6.mp3" "600" "191999" "44100" "2".

(** The two-file batch of the specification's scenario, with the outputs
    the encoder leaves, and further files of the same directory. *)
Definition studio : World :=
  table_world [chapter_1_wav; chapter_2_mp3; chapter_1_master; chapter_2_master;
               chapter_3_no_duration; chapter_5_no_stream_entries;
               chapter_6_low_bit_rate].

Definition studio_files : list string :=
  ["book/01_Chapter_1.wav"; "book/02_Chapter_2.mp3"].

(** The same batch in a world whose encoder leaves one-channel outputs. *)
Definition one_channel_outputs : World :=
  table_world
    [chapter_1_wav; chapter_2_mp3;
     media "book/book_master/01_Chapter_1.mp3" "600" "192000" "44100" "1";
     media "book/book_master/02_Chapter_2.mp3" "900" "192000" "44100" "1"].

(** The same batch in a world whose encoder fails on the first file, and
    the first file alone in that world. *)
Definition failing_first_encode : World :=
  table_world
    [failing_encode chapter_1_wav "Conversion failed!"; chapter_2_mp3;
     chapter_1_master; chapter_2_master].

Definition first_file_alone : list string := ["book/01_Chapter_1.wav"].

(* ===================================================================== *)
(** ** The checks of the [try] block, one at a time *)
(* ===================================================================== *)

(** The duration probe: the ffprobe call and the conversion of what it
    printed. *)
Definition probe_duration (w : World) (file_path : string) : string + float :=
  match check_output w (ffprobe_duration file_path) with
  | inl e => inl e
  | inr stdout => float_of_str w (Py.strip stdout)
  end.

Definition probe_bit_rate (w : World) (file_path : string) : string + string :=
  check_output w (ffprobe_stream "bit_rate" file_path).

Definition probe_sample_rate (w : World) (file_path : string) : string + string :=
  check_output w (ffprobe_stream "sample_rate" file_path).

(** The bitrate in kbps that the engine derives from ffprobe's text. *)
Definition kbps (stdout : string) : Z :=
  match Py.int (Py.strip stdout) with
  | Some n => n / 1000
  | None => 0
  end.

Definition duration_check (w : World) (duration_seconds : float) (r : Results) : Results :=
  let duration_minutes := (duration_seconds / 60)%float in
  let r := set_duration_minutes duration_minutes r in
  if (max_duration audio_requirements <? duration_minutes)%float
  then add_issue (duration_issue w duration_minutes) r else r.

Definition bitrate_check (bitrate : Z) (r : Results) : Results :=
  let r := set_bitrate bitrate r in
  if bitrate <? min_bitrate audio_requirements
  then add_issue (bitrate_issue bitrate) r else r.

Definition sample_rate_check (sample_rate : Z) (r : Results) : Results :=
  let r := set_sample_rate sample_rate r in
  if negb (sample_rate =? required_sample_rate audio_requirements)
  then add_issue (sample_rate_issue sample_rate) r else r.

Definition container_check (file_path : string) (r : Results) : Results :=
  if Py.endswith ".wav" (Py.lower file_path)
  then add_issue wav_issue (set_file_format "wav" r) else r.

(** What [results] holds when the [try] block is entered. *)
Definition named (file_path : string) : Results :=
  check_filename file_path (new_results (OsPath.basename file_path)).

(** The engine's report when no probe raises. *)
Definition probed (w : World) (file_path : string) (d : float) (b s : string) : Results :=
  add_issue normalization_issue
    (container_check file_path
       (set_channels (get_audio_channel_format w file_path)
          (sample_rate_check (int_or_zero s)
             (bitrate_check (kbps b)
                (duration_check w d (named file_path)))))).

(** The four ways an analysis ends: one per probe that raises, and the
    run in which none does. *)
Inductive analysis (w : World) (file_path : string) : Results -> Prop :=
| duration_raises e :
    probe_duration w file_path = inl e ->
    analysis w file_path (add_issue (analysis_error_issue e) (named file_path))
| bit_rate_raises d e :
    probe_duration w file_path = inr d ->
    probe_bit_rate w file_path = inl e ->
    analysis w file_path
      (add_issue (analysis_error_issue e) (duration_check w d (named file_path)))
| sample_rate_raises d b e :
    probe_duration w file_path = inr d ->
    probe_bit_rate w file_path = inr b ->
    probe_sample_rate w file_path = inl e ->
    analysis w file_path
      (add_issue (analysis_error_issue e)
         (bitrate_check (kbps b) (duration_check w d (named file_path))))
| all_probed d b s :
    probe_duration w file_path = inr d ->
    probe_bit_rate w file_path = inr b ->
    probe_sample_rate w file_path = inr s ->
    analysis w file_path (probed w file_path d b s).

(** No probe of the [try] block raises. *)
Definition probes_complete (w : World) (file_path : string) : bool :=
  match probe_duration w file_path, probe_bit_rate w file_path,
        probe_sample_rate w file_path with
  | inr _, inr _, inr _ => true
  | _, _, _ => false
  end.

(** The channel count ffprobe reports, when it reports one. *)
Definition probe_channels (w : World) (file_path : string) : option Z :=
  match check_output w (ffprobe_stream "channels" file_path) with
  | inr stdout => Py.int (Py.strip stdout)
  | inl _ => None
  end.

(** The report invariant of the data model. *)
Definition report_invariant (r : Results) : Prop :=
  compliant r = match issues r with [] => true | _ :: _ => false end.

(** The keyword table of the aggregator in the specification's words:
    the categories in their fixed order, each with its terms. *)
Inductive Category :=
| AudioLevel | PeakLevel | NoiseFloor | RoomTone | Format | Duration | Filename.

Definition category_terms : list (Category * list string) :=
  [(AudioLevel, ["rms"; "volume"; "levels"; "normalize"]);
   (PeakLevel, ["peak"]);
   (NoiseFloor, ["noise floor"]);
   (RoomTone, ["room tone"; "silence"]);
   (Format, ["bitrate"; "sample rate"; "cbr"; "channels"; "wav"]);
   (Duration, ["duration"; "minutes"]);
   (Filename, ["filename"; "chapter"])].

(** First match wins: the first category of the table one of whose terms
    occurs in the lower-cased issue. *)
Definition classify (issue : string) : option Category :=
  option_map fst (find (fun entry => any_term (snd entry) issue) category_terms).

Definition category_eqb (a b : Category) : bool :=
  match a, b with
  | AudioLevel, AudioLevel | PeakLevel, PeakLevel | NoiseFloor, NoiseFloor
  | RoomTone, RoomTone | Format, Format | Duration, Duration
  | Filename, Filename => true
  | _, _ => false
  end.

Definition counter (k : Category) (c : IssueCategories.t) : nat :=
  match k with
  | AudioLevel => IssueCategories.audio_level c
  | PeakLevel => IssueCategories.peak_level c
  | NoiseFloor => IssueCategories.noise_floor c
  | RoomTone => IssueCategories.room_tone c
  | Format => IssueCategories.format c
  | Duration => IssueCategories.duration c
  | Filename => IssueCategories.filename c
  end.

(* ===================================================================== *)
(** ** Discovery, tagging and the choice of a file to visualize *)
(* ===================================================================== *)

(** What [get_input_directory] asks of the file system. *)
Record FileSystem := {
  isdir : string -> bool;
  glob : string -> list string
}.

(** One turn of the prompt loop on the line the user typed: the directory
    and the files found in it, or [None] when the loop asks again. *)
Definition try_directory (fs : FileSystem) (answer : string)
  : option (string * list string) :=
  let directory := Py.strip answer in
  if isdir fs directory then
    let mp3_files := glob fs (OsPath.join directory "*.mp3") in
    let wav_files := glob fs (OsPath.join directory "*.wav") in
    match (mp3_files ++ wav_files)%list with
    | [] => None
    | all_audio_files => Some (directory, all_audio_files)
    end
  else None.

(** [get_input_directory] on the lines the user types, in order: the
    state with [audio_files] set and the directory returned.  [None]
    when the lines run out before a directory is accepted ([input]
    raises [EOFError], which nothing catches before the top level). *)
Fixpoint get_input_directory (fs : FileSystem) (answers : list string)
  (self : Processor) : option (Processor * string) :=
  match answers with
  | [] => None
  | answer :: answers' =>
      match try_directory fs answer with
      | Some (directory, all_audio_files) =>
          Some (set_audio_files all_audio_files self, directory)
      | None => get_input_directory fs answers' self
      end
  end.










(** [d.get(k)] on the report dictionary. *)
Fixpoint dict_get {V : Type} (d : list (string * V)) (k : string) : option V :=
  match d with
  | [] => None
  | (k', v) :: d' => if (k' =? k)%string then Some v else dict_get d' k
  end.

(** The report [process_files] leaves for a file under the policy
    [target]: the engine's report, with the channel-layout issue when
    the file's layout is not the target. *)
Definition driver_report (w : World) (target : ChannelFormat) (file_path : string)
  : Results :=
  let current_format := get_audio_channel_format w file_path in
  if negb (format_eqb current_format target)
  then add_issue (channel_issue current_format target) (analyze_audio_file w file_path)
  else analyze_audio_file w file_path.

(** An issue of the duration check, whatever the number in it. *)
Definition is_duration_issue (issue : string) : bool :=
  Py.startswith "File duration (" issue.


(** The character [ch] occurs in [s]. *)
Fixpoint has_char (ch : ascii) (s : string) : bool :=
  match s with
  | EmptyString => false
  | String c s' => (c =? ch)%char || has_char ch s'
  end.

(** Two long files: exactly two hours, and two hours and a half. *)
Definition long_chapters : World :=
  table_world
    [media "book/07_Chapter_7.mp3" "7200" "192000" "44100" "2";
     media "book/08_Chapter_8.mp3" "9000" "192000" "44100" "2"].

(** A file system with the directory of the two-file batch. *)
Definition shelf : FileSystem := {|
  isdir := fun d => (d =? "book")%string;
  glob := fun pattern =>
    if (pattern =? "book/*.mp3")%string then ["book/02_Chapter_2.mp3"]
    else if (pattern =? "book/*.wav")%string then ["book/01_Chapter_1.wav"]
    else []
|}.


(** The path [process_audio] encodes a file to. *)
Definition output_path_of (file_path output_dir : string) : string :=
  OsPath.join output_dir (fst (output_name file_path)).


(** A world in which ffprobe prints N/A for the duration of a file of 128
    kbps, and a world in which every ffprobe call for the bit rate exits
    with status 1. *)
Definition low_rate_no_duration : World :=
  table_world [media "book/09_Chapter_9.mp3" "N/A" "128000" "44100" "2"].

Definition bit_rate_query_fails : World := {|
  subprocess_run := fun cmd =>
    if existsb (String.eqb "stream=bit_rate") cmd
    then Exits 1 EmptyString "Invalid data found when processing input"
    else table_run [chapter_2_mp3] cmd;
  called_process_error := table_called_process_error;
  float_of_str := table_float_of_str;
  format_2f := table_format_2f;
  eyed3_load := fun _ => LoadRaises;
  makedirs := fun _ => None
|}.







(** ** Further definitions the statements use *)

(** The issues of the two filename checks. *)
Definition filename_issues (file_path : string) : list string :=
  let name := filename_without_ext file_path in
  ((if negb (re_match_filename name) then [special_characters_issue] else [])
   ++ (if negb (has_chapter_indicator name) && negb (Py.any_isdigit name)
       then [chapter_information_issue] else []))%list.

Definition keys {V : Type} (d : list (string * V)) : list string := map fst d.

(** Every report of [self.reports] satisfies [P]. *)
Definition all_reports (P : Results -> Prop) (self : Processor) : Prop :=
  Forall (fun kv => P (snd kv)) (reports self).

(** An issue of the bit-rate check, whatever the number in it. *)
Definition is_bitrate_issue (issue : string) : bool :=
  Py.startswith "Bitrate is " issue.

(** An issue of the [try] block or of its handler. *)
Definition engine_issue (w : World) (x : string) : Prop :=
  (exists d, x = duration_issue w d) \/ (exists b, x = bitrate_issue b)
  \/ (exists s, x = sample_rate_issue s) \/ x = wav_issue
  \/ x = normalization_issue \/ (exists e, x = analysis_error_issue e).

(** Every character of [s] is of the class [[a-zA-Z0-9_\- ]]. *)
Fixpoint filename_chars (s : string) : bool :=
  match s with
  | EmptyString => true
  | String c s' => filename_char c && filename_chars s'
  end.

Definition bump (k : Category) (issue : string) : nat :=
  match classify issue with
  | Some k' => if category_eqb k k' then 1 else 0
  | None => 0
  end.

(** The issues of a list that [classify] puts in category [k]. *)
Definition classified_as (k : Category) (l : list string) : nat :=
  List.length
    (filter (fun issue =>
               match classify issue with
               | Some k' => category_eqb k k'
               | None => false
               end) l).

(** The issues of the non-compliant reports that [classify] puts in
    category [k]. *)
Fixpoint classified_in_reports (k : Category) (reports : list (string * Results)) : nat :=
  match reports with
  | [] => 0
  | kv :: reports' =>
      ((if compliant (snd kv) then 0 else classified_as k (issues (snd kv)))
       + classified_in_reports k reports')%nat
  end.

(* ===================================================================== *)
(** * Properties *)
(* ===================================================================== *)

(** ** The rule engine, path by path *)

Ltac try_steps :=
  unfold probe_block, bind, call, update, when, ret.

Lemma analyze_duration_raises w f e :
  probe_duration w f = inl e ->
  analyze_audio_file w f = add_issue (analysis_error_issue e) (named f).
Proof.
  unfold probe_duration, analyze_audio_file, named. try_steps. intros H.
  destruct (check_output w (ffprobe_duration f)) as [e1 | out].
  - inversion H; subst. reflexivity.
  - rewrite H. reflexivity.
Qed.

Lemma analyze_bit_rate_raises w f d e :
  probe_duration w f = inr d ->
  probe_bit_rate w f = inl e ->
  analyze_audio_file w f
  = add_issue (analysis_error_issue e) (duration_check w d (named f)).
Proof.
  unfold probe_duration, probe_bit_rate, analyze_audio_file, named, duration_check.
  try_steps. intros Hd Hb.
  destruct (check_output w (ffprobe_duration f)) as [e1 | out]; [discriminate |].
  rewrite Hd.
  destruct (max_duration audio_requirements <? d / 60)%float; rewrite Hb; reflexivity.
Qed.

Lemma analyze_sample_rate_raises w f d b e :
  probe_duration w f = inr d ->
  probe_bit_rate w f = inr b ->
  probe_sample_rate w f = inl e ->
  analyze_audio_file w f
  = add_issue (analysis_error_issue e)
      (bitrate_check (kbps b) (duration_check w d (named f))).
Proof.
  unfold probe_duration, probe_bit_rate, probe_sample_rate, analyze_audio_file,
    named, duration_check, bitrate_check, kbps.
  try_steps. intros Hd Hb Hs.
  destruct (check_output w (ffprobe_duration f)) as [e1 | out]; [discriminate |].
  rewrite Hd.
  destruct (max_duration audio_requirements <? d / 60)%float; rewrite Hb;
    match goal with
    | |- context [if ?c then _ else _] => destruct c
    end; rewrite Hs; reflexivity.
Qed.

Lemma analyze_all_probed w f d b s :
  probe_duration w f = inr d ->
  probe_bit_rate w f = inr b ->
  probe_sample_rate w f = inr s ->
  analyze_audio_file w f = probed w f d b s.
Proof.
  unfold probe_duration, probe_bit_rate, probe_sample_rate, analyze_audio_file,
    probed, named, duration_check, bitrate_check, sample_rate_check,
    container_check, kbps.
  try_steps. intros Hd Hb Hs.
  destruct (check_output w (ffprobe_duration f)) as [e1 | out]; [discriminate |].
  rewrite Hd.
  destruct (max_duration audio_requirements <? d / 60)%float; rewrite Hb;
    destruct (_ <? min_bitrate audio_requirements); rewrite Hs;
    destruct (negb _); destruct (Py.endswith _ _); reflexivity.
Qed.

(** Every analysis ends in one of the four ways. *)
Lemma analyze_audio_file_analysis w f : analysis w f (analyze_audio_file w f).
Proof.
  destruct (probe_duration w f) as [e | d] eqn:Hd.
  - rewrite (analyze_duration_raises _ _ _ Hd). now constructor.
  - destruct (probe_bit_rate w f) as [e | b] eqn:Hb.
    + rewrite (analyze_bit_rate_raises _ _ _ _ Hd Hb). now constructor.
    + destruct (probe_sample_rate w f) as [e | s] eqn:Hs.
      * rewrite (analyze_sample_rate_raises _ _ _ _ _ Hd Hb Hs). now constructor.
      * rewrite (analyze_all_probed _ _ _ _ _ Hd Hb Hs). now constructor.
Qed.

(** ** The issue list and the fields of a report *)

Open Scope list_scope.

Lemma issues_named f : issues (named f) = filename_issues f.
Proof.
  unfold named, check_filename, filename_issues.
  destruct (negb (re_match_filename _)); destruct (_ && _); reflexivity.
Qed.

Lemma fields_named f :
  duration_minutes (named f) = None /\ bitrate (named f) = None
  /\ sample_rate (named f) = None /\ channels (named f) = None.
Proof.
  unfold named, check_filename.
  destruct (negb (re_match_filename _)); destruct (_ && _); repeat split.
Qed.

Lemma issues_duration_check w d r :
  issues (duration_check w d r)
  = issues r ++ (if (max_duration audio_requirements <? d / 60)%float
                 then [duration_issue w (d / 60)%float] else []).
Proof.
  unfold duration_check.
  destruct (_ <? _)%float; simpl; [reflexivity | now rewrite app_nil_r].
Qed.

Lemma issues_bitrate_check b r :
  issues (bitrate_check b r)
  = issues r ++ (if b <? min_bitrate audio_requirements then [bitrate_issue b] else []).
Proof.
  unfold bitrate_check.
  destruct (b <? _); simpl; [reflexivity | now rewrite app_nil_r].
Qed.

Lemma issues_sample_rate_check s r :
  issues (sample_rate_check s r)
  = issues r ++ (if negb (s =? required_sample_rate audio_requirements)
                 then [sample_rate_issue s] else []).
Proof.
  unfold sample_rate_check.
  destruct (negb _); simpl; [reflexivity | now rewrite app_nil_r].
Qed.

Lemma issues_container_check f r :
  issues (container_check f r)
  = issues r ++ (if Py.endswith ".wav" (Py.lower f) then [wav_issue] else []).
Proof.
  unfold container_check.
  destruct (Py.endswith _ _); simpl; [reflexivity | now rewrite app_nil_r].
Qed.

(** The issues of a run in which no probe raises, in detection order. *)
Lemma issues_probed w f d b s :
  issues (probed w f d b s)
  = filename_issues f
    ++ (if (max_duration audio_requirements <? d / 60)%float
        then [duration_issue w (d / 60)%float] else [])
    ++ (if kbps b <? min_bitrate audio_requirements then [bitrate_issue (kbps b)] else [])
    ++ (if negb (int_or_zero s =? required_sample_rate audio_requirements)
        then [sample_rate_issue (int_or_zero s)] else [])
    ++ (if Py.endswith ".wav" (Py.lower f) then [wav_issue] else [])
    ++ [normalization_issue].
Proof.
  unfold probed. cbn [issues add_issue].
  rewrite issues_container_check. cbn [issues set_channels].
  rewrite issues_sample_rate_check, issues_bitrate_check, issues_duration_check,
    issues_named.
  now rewrite <- !app_assoc.
Qed.

Lemma bitrate_duration_check w d r : bitrate (duration_check w d r) = bitrate r.
Proof. unfold duration_check. now destruct (_ <? _)%float. Qed.

Lemma bitrate_bitrate_check b r : bitrate (bitrate_check b r) = Some b.
Proof. unfold bitrate_check. now destruct (b <? _). Qed.

Lemma bitrate_sample_rate_check s r : bitrate (sample_rate_check s r) = bitrate r.
Proof. unfold sample_rate_check. now destruct (negb _). Qed.

Lemma bitrate_container_check f r : bitrate (container_check f r) = bitrate r.
Proof. unfold container_check. now destruct (Py.endswith _ _). Qed.

Lemma sample_rate_duration_check w d r :
  sample_rate (duration_check w d r) = sample_rate r.
Proof. unfold duration_check. now destruct (_ <? _)%float. Qed.

Lemma sample_rate_bitrate_check b r : sample_rate (bitrate_check b r) = sample_rate r.
Proof. unfold bitrate_check. now destruct (b <? _). Qed.

Lemma sample_rate_sample_rate_check s r :
  sample_rate (sample_rate_check s r) = Some s.
Proof. unfold sample_rate_check. now destruct (negb _). Qed.

Lemma sample_rate_container_check f r :
  sample_rate (container_check f r) = sample_rate r.
Proof. unfold container_check. now destruct (Py.endswith _ _). Qed.

Lemma channels_container_check f r : channels (container_check f r) = channels r.
Proof. unfold container_check. now destruct (Py.endswith _ _). Qed.

Lemma channels_duration_check w d r : channels (duration_check w d r) = channels r.
Proof. unfold duration_check. now destruct (_ <? _)%float. Qed.

Lemma channels_bitrate_check b r : channels (bitrate_check b r) = channels r.
Proof. unfold bitrate_check. now destruct (b <? _). Qed.

Lemma fields_probed w f d b s :
  bitrate (probed w f d b s) = Some (kbps b)
  /\ sample_rate (probed w f d b s) = Some (int_or_zero s)
  /\ channels (probed w f d b s) = Some (get_audio_channel_format w f).
Proof.
  unfold probed. cbn [bitrate sample_rate channels add_issue].
  rewrite bitrate_container_check, sample_rate_container_check,
    channels_container_check.
  cbn [bitrate sample_rate channels set_channels].
  now rewrite bitrate_sample_rate_check, bitrate_bitrate_check,
    sample_rate_sample_rate_check.
Qed.

(** Every report of the engine ends with an appended issue. *)
Lemma analysis_appends w f r :
  analysis w f r -> exists issue r0, r = add_issue issue r0.
Proof. intros H; destruct H; unfold probed; eauto. Qed.

Lemma add_issue_invariant issue r : report_invariant (add_issue issue r).
Proof.
  unfold report_invariant. cbn [compliant issues add_issue].
  now destruct (issues r).
Qed.

(** ** The report dictionary under the analysis loop *)

Section Dictionary.

Context {V : Type}.

Lemma keys_dict_set (d : list (string * V)) k v k' :
  In k' (keys (dict_set d k v)) <-> k' = k \/ In k' (keys d).
Proof.
  induction d as [| [k0 v0] d IH]; simpl.
  - intuition.
  - destruct (String.eqb_spec k0 k) as [-> | Hne]; simpl.
    + intuition.
    + rewrite IH. intuition.
Qed.

Lemma keys_dict_update (d : list (string * V)) k f :
  keys (dict_update d k f) = keys d.
Proof.
  induction d as [| [k0 v0] d IH]; simpl; [reflexivity |].
  destruct (k0 =? k)%string; simpl; [reflexivity | now rewrite IH].
Qed.

Lemma dict_set_Forall (P : V -> Prop) d k v :
  Forall (fun kv => P (snd kv)) d -> P v ->
  Forall (fun kv => P (snd kv)) (dict_set d k v).
Proof.
  intros Hd Hv. induction Hd as [| [k0 v0] d H0 Hd IH]; simpl.
  - now repeat constructor.
  - destruct (k0 =? k)%string; constructor; auto.
Qed.

Lemma dict_update_Forall (P : V -> Prop) d k f :
  (forall v, P v -> P (f v)) ->
  Forall (fun kv => P (snd kv)) d ->
  Forall (fun kv => P (snd kv)) (dict_update d k f).
Proof.
  intros Hf Hd. induction Hd as [| [k0 v0] d H0 Hd IH]; simpl.
  - constructor.
  - destruct (k0 =? k)%string; constructor; simpl in *; auto.
Qed.

End Dictionary.

Section EveryReport.

Variable w : World.
Variable P : Results -> Prop.
Hypothesis engine : forall f, P (analyze_audio_file w f).
Hypothesis driver : forall issue r, P r -> P (add_issue issue r).

Lemma analyze_step_all self f :
  all_reports P self -> all_reports P (analyze_step w self f).
Proof.
  unfold all_reports, analyze_step. intros H.
  cbn [target_channel_format reports set_reports].
  destruct (target_channel_format self) as [target |].
  - destruct (negb _); cbn [reports set_reports].
    + apply dict_update_Forall; [now auto | now apply dict_set_Forall].
    + now apply dict_set_Forall.
  - now apply dict_set_Forall.
Qed.

Lemma analysis_loop_all files self :
  all_reports P self -> all_reports P (fold_left (analyze_step w) files self).
Proof.
  revert self. induction files as [| f files IH]; intros self H; simpl.
  - exact H.
  - apply IH. now apply analyze_step_all.
Qed.

Lemma process_files_all self :
  all_reports P self -> all_reports P (process_files w self).
Proof.
  unfold process_files, determine_target_channel_format. intros H.
  destruct (audio_files self) as [| first rest] eqn:Hfiles; [exact H |].
  cbn [fst audio_files set_target_channel_format]. rewrite Hfiles.
  now apply analysis_loop_all.
Qed.

Lemma process_all_files_all self dir self' :
  process_all_files w self dir = Some self' ->
  all_reports P self -> all_reports P self'.
Proof.
  unfold process_all_files. intros Hrun H.
  destruct (audio_files self) as [| first rest]; [now inversion Hrun; subst |].
  destruct (makedirs w _); [discriminate |].
  destruct (remediate_all w _ _ _) as [| p ps]; inversion Hrun; subst.
  - exact H.
  - apply process_files_all. constructor.
Qed.

Lemma main_all files final :
  main w files = Some final -> all_reports P final.
Proof.
  unfold main. intros Hrun.
  apply (process_all_files_all _ _ _ Hrun).
  apply process_files_all. constructor.
Qed.

End EveryReport.

Lemma analyze_step_keys w self f k :
  In k (keys (reports (analyze_step w self f))) <-> k = f \/ In k (keys (reports self)).
Proof.
  unfold analyze_step. cbn [target_channel_format reports set_reports].
  destruct (target_channel_format self) as [target |];
    [destruct (negb _) |]; cbn [reports set_reports];
    rewrite ?keys_dict_update; apply keys_dict_set.
Qed.

Lemma analysis_loop_keys w files self k :
  In k (keys (reports (fold_left (analyze_step w) files self)))
  <-> In k files \/ In k (keys (reports self)).
Proof.
  revert self. induction files as [| f files IH]; intros self; simpl.
  - intuition.
  - rewrite IH, analyze_step_keys. intuition.
Qed.

Lemma process_files_keys w self k :
  In k (keys (reports (process_files w self)))
  <-> In k (audio_files self) \/ In k (keys (reports self)).
Proof.
  unfold process_files, determine_target_channel_format.
  destruct (audio_files self) as [| first rest] eqn:Hfiles.
  - simpl. intuition.
  - cbn [fst audio_files set_target_channel_format]. rewrite Hfiles.
    now rewrite analysis_loop_keys.
Qed.

Lemma compliant_count_zero reports :
  Forall (fun kv => compliant (snd kv) = false) reports -> compliant_count reports = 0%nat.
Proof.
  unfold compliant_count. induction 1 as [| kv l H Hl IH]; simpl.
  - reflexivity.
  - now rewrite H.
Qed.

Lemma analyze_not_compliant w f : compliant (analyze_audio_file w f) = false.
Proof.
  destruct (analysis_appends _ _ _ (analyze_audio_file_analysis w f)) as (i & r0 & ->).
  reflexivity.
Qed.

(** ** The report invariant and the compliant count *)

(** C4: every report satisfies [compliant == issues.isEmpty()]: when the
    [try] block is entered, when the engine returns, in every entry of
    [self.reports] after an analysis pass (the driver's channel-layout
    issue included), and in every entry the final report is written
    from. *)
Theorem report_invariant_holds (w : World) :
  (forall f, report_invariant (named f))
  /\ (forall f, report_invariant (analyze_audio_file w f))
  /\ (forall current target r,
        report_invariant (add_issue (channel_issue current target) r))
  /\ (forall self,
        all_reports report_invariant self ->
        all_reports report_invariant (process_files w self))
  /\ (forall files final,
        main w files = Some final -> all_reports report_invariant final).
Proof.
  assert (engine : forall f, report_invariant (analyze_audio_file w f)).
  { intros f.
    destruct (analysis_appends _ _ _ (analyze_audio_file_analysis w f))
      as (i & r0 & ->).
    apply add_issue_invariant. }
  repeat split.
  - intros f. unfold named, check_filename.
    destruct (negb (re_match_filename _)); destruct (_ && _);
      try apply add_issue_invariant; reflexivity.
  - exact engine.
  - intros. apply add_issue_invariant.
  - intros self. apply process_files_all; [exact engine |].
    intros. apply add_issue_invariant.
  - intros files final. apply main_all; [exact engine |].
    intros. apply add_issue_invariant.
Qed.

Lemma report_invariant_holds_witness :
  all_reports report_invariant (process_files studio (set_audio_files studio_files init))
  /\ (exists final, main studio studio_files = Some final
                    /\ all_reports report_invariant final).
Proof.
  destruct (report_invariant_holds studio) as (_ & _ & _ & Hpass & Hmain).
  split.
  - apply Hpass. constructor.
  - destruct (main studio studio_files) as [final |] eqn:Hrun.
    + exists final. split; [reflexivity | now apply (Hmain studio_files)].
    + vm_compute in Hrun. discriminate.
Defined.

(** C9: in every analysis pass the engine marks the file non-compliant, so
    the summary counts no compliant file, after the first pass and in the
    state the final report is written from; a non-empty batch has at
    least one non-compliant file, and the written report counts all of
    its files as non-compliant. *)
Theorem compliant_count_is_zero (w : World) (files : list string) :
  let first_pass := process_files w (set_audio_files files init) in
  (forall f, compliant (analyze_audio_file w f) = false)
  /\ compliant_files (summary (reports first_pass)) = 0%nat
  /\ non_compliant_files (summary (reports first_pass))
     = total_files (summary (reports first_pass))
  /\ (files <> [] -> (0 < non_compliant_files (summary (reports first_pass)))%nat)
  /\ (forall final,
        main w files = Some final ->
        compliant_files (summary (reports final)) = 0%nat
        /\ forall report,
             generate_report final = Some report ->
             report_compliant report = 0%nat
             /\ report_non_compliant report = report_total report).
Proof.
  intros first_pass.
  assert (Hpass : compliant_count (reports first_pass) = 0%nat).
  { apply compliant_count_zero.
    apply (process_files_all w (fun r => compliant r = false)).
    - apply analyze_not_compliant.
    - reflexivity.
    - constructor. }
  split; [apply analyze_not_compliant |].
  split; [exact Hpass |].
  split; [cbn [summary non_compliant_files total_files];
          unfold non_compliant_count; rewrite Hpass; apply Nat.sub_0_r |].
  split.
  - intros Hfiles. cbn [summary non_compliant_files].
    unfold non_compliant_count. rewrite Hpass, Nat.sub_0_r.
    destruct files as [| f files']; [contradiction |].
    assert (Hin : In f (keys (reports first_pass))).
    { apply process_files_keys. left. now left. }
    unfold keys in Hin.
    destruct (reports first_pass); [contradiction | apply Nat.lt_0_succ].
  - intros final Hrun.
    assert (Hfinal : compliant_count (reports final) = 0%nat).
    { apply compliant_count_zero.
      apply (main_all w (fun r => compliant r = false)) with (files := files).
      - apply analyze_not_compliant.
      - reflexivity.
      - exact Hrun. }
    split; [exact Hfinal |].
    intros report Hreport. unfold generate_report in Hreport.
    destruct (reports final) as [| kv l] eqn:Hreports; [discriminate |].
    inversion Hreport; subst; cbn [report_compliant report_non_compliant report_total].
    unfold non_compliant_count. rewrite Hfinal.
    split; [reflexivity | apply Nat.sub_0_r].
Qed.

Lemma compliant_count_is_zero_witness :
  (0 < non_compliant_files
         (summary (reports (process_files studio (set_audio_files studio_files init)))))%nat
  /\ (exists final report,
        main studio studio_files = Some final
        /\ generate_report final = Some report
        /\ report_compliant report = 0%nat
        /\ report_non_compliant report = report_total report).
Proof.
  destruct (compliant_count_is_zero studio studio_files) as (_ & _ & _ & Hpos & Hmain).
  split.
  - apply Hpos. discriminate.
  - destruct (main studio studio_files) as [final |] eqn:Hrun;
      [| vm_compute in Hrun; discriminate].
    destruct (Hmain final eq_refl) as [_ Hreport].
    assert (Hsome : option_map generate_report (main studio studio_files) <> Some None)
      by (vm_compute; discriminate).
    rewrite Hrun in Hsome. simpl in Hsome.
    destruct (generate_report final) as [report |] eqn:Hgen; [| contradiction].
    exists final, report.
    destruct (Hreport report eq_refl) as [H0 Htotal].
    repeat split; assumption.
Defined.

(** ** Which issues a report can hold *)

(** Rewrites the issue list of a report into appended segments. *)
Ltac explicit_issues :=
  cbn [issues add_issue];
  rewrite ?issues_probed, ?issues_bitrate_check, ?issues_duration_check,
    ?issues_named.

(** Splits membership in appended segments into its cases. *)
Ltac issue_cases H :=
  repeat rewrite in_app_iff in H;
  repeat match type of H with
    | context [if ?c then _ else _] => destruct c eqn:?
    end;
  cbn [In] in H.

Lemma last_app_singleton (l : list string) (x d : string) : last (l ++ [x]) d = x.
Proof. apply last_last. Qed.

Lemma last_probed w f d b s :
  last (issues (probed w f d b s)) EmptyString = normalization_issue.
Proof. unfold probed. cbn [issues add_issue]. apply last_app_singleton. Qed.

Lemma not_in_filename_issues x f :
  x <> special_characters_issue -> x <> chapter_information_issue ->
  ~ In x (filename_issues f).
Proof.
  intros H1 H2 H. unfold filename_issues in H. issue_cases H.
  all: intuition congruence.
Qed.

(** The normalization flag is none of the other issues. *)
Lemma normalization_issue_only_in_last_check w f d b e :
  ~ In normalization_issue (issues (named f))
  /\ ~ In normalization_issue (issues (duration_check w d (named f)))
  /\ ~ In normalization_issue
         (issues (bitrate_check (kbps b) (duration_check w d (named f))))
  /\ normalization_issue <> analysis_error_issue e.
Proof.
  assert (Hname : ~ In normalization_issue (filename_issues f))
    by (apply not_in_filename_issues; discriminate).
  repeat split; try discriminate; intros H; revert H; explicit_issues; intros H;
    issue_cases H; intuition discriminate.
Qed.

(** ** The normalization flag *)

(** C3 (as amended): the engine marks every file non-compliant.  When no
    probe of the [try] block raises, whatever the probes report, the
    normalization issue is appended and is the last issue of the
    engine's report; when a probe raises, the report ends with an
    "Error analyzing file" issue instead and holds no normalization
    issue. *)
Theorem normalization_flag (w : World) (f : string) :
  compliant (analyze_audio_file w f) = false
  /\ (In normalization_issue (issues (analyze_audio_file w f))
      <-> probes_complete w f = true)
  /\ (probes_complete w f = true ->
      last (issues (analyze_audio_file w f)) EmptyString = normalization_issue)
  /\ (probes_complete w f = false ->
      exists e,
        last (issues (analyze_audio_file w f)) EmptyString = analysis_error_issue e).
Proof.
  split; [apply analyze_not_compliant |].
  unfold probes_complete.
  destruct (analyze_audio_file_analysis w f)
    as [e He | d e Hd He | d b e Hd Hb He | d b s Hd Hb Hs].
  - rewrite He.
    destruct (normalization_issue_only_in_last_check w f 0%float EmptyString e)
      as (Hn & _ & _ & Hne).
    repeat split; try discriminate.
    + cbn [issues add_issue]. rewrite in_app_iff. cbn [In]. intuition.
    + intros _. exists e. cbn [issues add_issue]. apply last_app_singleton.
  - rewrite Hd, He.
    destruct (normalization_issue_only_in_last_check w f d EmptyString e)
      as (_ & Hn & _ & Hne).
    repeat split; try discriminate.
    + cbn [issues add_issue]. rewrite in_app_iff. cbn [In]. intuition.
    + intros _. exists e. cbn [issues add_issue]. apply last_app_singleton.
  - rewrite Hd, Hb, He.
    destruct (normalization_issue_only_in_last_check w f d b e)
      as (_ & _ & Hn & Hne).
    repeat split; try discriminate.
    + cbn [issues add_issue]. rewrite in_app_iff. cbn [In]. intuition.
    + intros _. exists e. cbn [issues add_issue]. apply last_app_singleton.
  - rewrite Hd, Hb, Hs.
    repeat split; try discriminate.
    + unfold probed. cbn [issues add_issue]. rewrite in_app_iff. cbn [In].
      now right; left.
    + intros _. apply last_probed.
Qed.

Lemma normalization_flag_witness :
  last (issues (analyze_audio_file studio "book/01_Chapter_1.wav")) EmptyString
  = normalization_issue
  /\ exists e,
       last (issues (analyze_audio_file studio "book/missing.mp3")) EmptyString
       = analysis_error_issue e.
Proof.
  split.
  - apply (normalization_flag studio "book/01_Chapter_1.wav"). reflexivity.
  - apply (normalization_flag studio "book/missing.mp3"). reflexivity.
Defined.

(** C3 as stated fails: ffprobe exits with status 1 on a path it cannot
    open, and the engine's report for that file holds no normalization
    issue. *)
Lemma normalization_flag_counterexample :
  subprocess_run studio (ffprobe_duration "book/missing.mp3")
  = Exits 1 EmptyString "book/missing.mp3: No such file or directory"
  /\ ~ In normalization_issue (issues (analyze_audio_file studio "book/missing.mp3")).
Proof.
  split; [reflexivity |].
  vm_compute. intros [H | [H | []]]; discriminate H.
Qed.

(** ** Probe failures *)

Lemma kbps_unparsable b : Py.int (Py.strip b) = None -> kbps b = 0.
Proof. unfold kbps. now intros ->. Qed.

Lemma int_or_zero_unparsable s : Py.int (Py.strip s) = None -> int_or_zero s = 0.
Proof. unfold int_or_zero. now intros ->. Qed.

(** C1 (as amended): a bit rate or sample rate that ffprobe prints but
    that is no number degrades to the sentinel 0, which fails its check;
    the channel layout degrades to mono when ffprobe gives no channel
    count and eyed3 gives no mode; in these cases every later check is
    still evaluated, in the fixed order, and the normalization flag is
    appended last.  A probe that raises in the [try] block (ffprobe
    failing for the duration, the bit rate or the sample rate, or a
    duration that is no number) gets no sentinel: the later checks are
    skipped, no normalization flag is appended, and the report ends with
    one "Error analyzing file" issue. *)
Theorem probe_failure_policy (w : World) (f : string) :
  (forall d b s,
     probe_duration w f = inr d ->
     probe_bit_rate w f = inr b ->
     probe_sample_rate w f = inr s ->
     analyze_audio_file w f = probed w f d b s
     /\ (Py.int (Py.strip b) = None ->
         bitrate (analyze_audio_file w f) = Some 0
         /\ In (bitrate_issue 0) (issues (analyze_audio_file w f)))
     /\ (Py.int (Py.strip s) = None ->
         sample_rate (analyze_audio_file w f) = Some 0
         /\ In (sample_rate_issue 0) (issues (analyze_audio_file w f)))
     /\ channels (analyze_audio_file w f) = Some (get_audio_channel_format w f)
     /\ last (issues (analyze_audio_file w f)) EmptyString = normalization_issue)
  /\ (probe_channels w f = None ->
      eyed3_load w f = LoadRaises \/ eyed3_load w f = LoadNothing ->
      get_audio_channel_format w f = Mono)
  /\ (forall e,
        probe_duration w f = inl e ->
        issues (analyze_audio_file w f) = filename_issues f ++ [analysis_error_issue e]
        /\ bitrate (analyze_audio_file w f) = None
        /\ sample_rate (analyze_audio_file w f) = None
        /\ channels (analyze_audio_file w f) = None
        /\ ~ In normalization_issue (issues (analyze_audio_file w f)))
  /\ (forall d e,
        probe_duration w f = inr d ->
        probe_bit_rate w f = inl e ->
        last (issues (analyze_audio_file w f)) EmptyString = analysis_error_issue e
        /\ bitrate (analyze_audio_file w f) = None
        /\ sample_rate (analyze_audio_file w f) = None
        /\ channels (analyze_audio_file w f) = None
        /\ ~ In normalization_issue (issues (analyze_audio_file w f)))
  /\ (forall d b e,
        probe_duration w f = inr d ->
        probe_bit_rate w f = inr b ->
        probe_sample_rate w f = inl e ->
        last (issues (analyze_audio_file w f)) EmptyString = analysis_error_issue e
        /\ sample_rate (analyze_audio_file w f) = None
        /\ channels (analyze_audio_file w f) = None
        /\ ~ In normalization_issue (issues (analyze_audio_file w f))).
Proof.
  destruct (fields_named f) as (_ & Hbit & Hrate & Hchan).
  split; [| split; [| split; [| split]]].
  - intros d b s Hd Hb Hs.
    rewrite (analyze_all_probed _ _ _ _ _ Hd Hb Hs).
    destruct (fields_probed w f d b s) as (Fb & Fs & Fc).
    split; [reflexivity |]. split; [| split; [| split]].
    + intros Hint. rewrite Fb, issues_probed, (kbps_unparsable _ Hint).
      split; [reflexivity |].
      rewrite !in_app_iff. right; right; left. now left.
    + intros Hint. rewrite Fs, issues_probed, (int_or_zero_unparsable _ Hint).
      split; [reflexivity |].
      rewrite !in_app_iff. right; right; right; left. now left.
    + exact Fc.
    + apply last_probed.
  - unfold probe_channels, get_audio_channel_format, eyed3_channel_format.
    intros Hprobe Hload.
    destruct (check_output w _) as [e | stdout].
    + destruct Hload as [-> | ->]; reflexivity.
    + rewrite Hprobe. destruct Hload as [-> | ->]; reflexivity.
  - intros e He. rewrite (analyze_duration_raises _ _ _ He).
    destruct (normalization_issue_only_in_last_check w f 0%float EmptyString e)
      as (Hn & _ & _ & Hne).
    cbn [issues bitrate sample_rate channels add_issue]. rewrite issues_named.
    repeat split; try assumption.
    rewrite <- issues_named, in_app_iff. cbn [In]. intuition.
  - intros d e Hd He. rewrite (analyze_bit_rate_raises _ _ _ _ Hd He).
    destruct (normalization_issue_only_in_last_check w f d EmptyString e)
      as (_ & Hn & _ & Hne).
    cbn [issues bitrate sample_rate channels add_issue].
    rewrite bitrate_duration_check, sample_rate_duration_check,
      channels_duration_check.
    repeat split; try assumption.
    + apply last_app_singleton.
    + rewrite in_app_iff. cbn [In]. intuition.
  - intros d b e Hd Hb He. rewrite (analyze_sample_rate_raises _ _ _ _ _ Hd Hb He).
    destruct (normalization_issue_only_in_last_check w f d b e)
      as (_ & _ & Hn & Hne).
    cbn [issues bitrate sample_rate channels add_issue].
    rewrite sample_rate_bitrate_check, sample_rate_duration_check,
      channels_bitrate_check, channels_duration_check.
    repeat split; try assumption.
    + apply last_app_singleton.
    + rewrite in_app_iff. cbn [In]. intuition.
Qed.

Lemma probe_failure_policy_witness :
  (bitrate (analyze_audio_file studio "book/05_Chapter_5.mp3") = Some 0
   /\ In (bitrate_issue 0) (issues (analyze_audio_file studio "book/05_Chapter_5.mp3")))
  /\ (sample_rate (analyze_audio_file studio "book/05_Chapter_5.mp3") = Some 0
      /\ In (sample_rate_issue 0)
            (issues (analyze_audio_file studio "book/05_Chapter_5.mp3")))
  /\ get_audio_channel_format studio "book/05_Chapter_5.mp3" = Mono
  /\ bitrate (analyze_audio_file studio "book/03_Chapter_3.mp3") = None.
Proof.
  destruct (probe_failure_policy studio "book/05_Chapter_5.mp3")
    as (Hprobed & Hmono & _).
  destruct (Hprobed 600%float "N/A" "N/A" eq_refl eq_refl eq_refl)
    as (_ & Hbit & Hrate & _).
  destruct (probe_failure_policy studio "book/03_Chapter_3.mp3")
    as (_ & _ & Hraise & _).
  split; [apply Hbit; reflexivity |].
  split; [apply Hrate; reflexivity |].
  split; [apply Hmono; [reflexivity | left; reflexivity] |].
  apply (Hraise "could not convert string to float: 'N/A'"). reflexivity.
Defined.

(** C1 as stated fails: ffprobe prints N/A for the duration of a file and
    valid numbers for the rest; the engine then evaluates neither the
    bit-rate nor the sample-rate check and appends no normalization
    flag. *)
Lemma probe_failure_policy_counterexample :
  probe_duration studio "book/03_Chapter_3.mp3"
  = inl "could not convert string to float: 'N/A'"
  /\ probe_bit_rate studio "book/03_Chapter_3.mp3" = inr "192000"
  /\ probe_sample_rate studio "book/03_Chapter_3.mp3" = inr "44100"
  /\ bitrate (analyze_audio_file studio "book/03_Chapter_3.mp3") = None
  /\ sample_rate (analyze_audio_file studio "book/03_Chapter_3.mp3") = None
  /\ issues (analyze_audio_file studio "book/03_Chapter_3.mp3")
     = ["Error analyzing file: could not convert string to float: 'N/A'"%string].
Proof. repeat split; vm_compute; reflexivity. Qed.

(** ** The bit-rate check *)

Lemma no_bitrate_issue_in_filename_issues f :
  existsb is_bitrate_issue (filename_issues f) = false.
Proof.
  unfold filename_issues.
  destruct (negb (re_match_filename _)); destruct (_ && _); reflexivity.
Qed.

Lemma bitrate_issue_not_in_filename_issues b f :
  ~ In (bitrate_issue b) (filename_issues f).
Proof. apply not_in_filename_issues; discriminate. Qed.

Lemma is_bitrate_issue_bitrate_issue b : is_bitrate_issue (bitrate_issue b) = true.
Proof. reflexivity. Qed.

Lemma is_bitrate_issue_duration_issue w d :
  is_bitrate_issue (duration_issue w d) = false.
Proof. reflexivity. Qed.

(** The bit-rate issue among the issues up to and including the bit-rate
    check. *)
Lemma bitrate_issue_after_check w f d b :
  (In (bitrate_issue b) (issues (bitrate_check b (duration_check w d (named f))))
   <-> b < min_bitrate audio_requirements)
  /\ existsb is_bitrate_issue (issues (bitrate_check b (duration_check w d (named f))))
     = (b <? min_bitrate audio_requirements).
Proof.
  pose proof (bitrate_issue_not_in_filename_issues b f) as Hname.
  rewrite issues_bitrate_check, issues_duration_check, issues_named.
  rewrite !existsb_app, no_bitrate_issue_in_filename_issues, !in_app_iff.
  destruct (Z.ltb_spec b (min_bitrate audio_requirements)) as [Hlt | Hge];
    destruct (_ <? _)%float; cbn [In existsb];
    rewrite ?is_bitrate_issue_bitrate_issue, ?is_bitrate_issue_duration_issue;
    (split; [| reflexivity]).
  - split; [intros _; exact Hlt | intros _; right; now left].
  - split; [intros _; exact Hlt | intros _; right; now left].
  - split; [intros H; exfalso; intuition discriminate | intros H; exfalso; lia].
  - split; [intros H; exfalso; intuition discriminate | intros H; exfalso; lia].
Qed.

(** C5 (as amended): when the evaluation reaches the bit-rate check (the
    duration probe and the ffprobe call for the bit rate do not raise),
    the engine has a bit rate [b], the kbps derived from ffprobe's text
    or 0 when the text is no number; the bit-rate issue is then in the
    report iff [b < 192], and no issue of the bit-rate check is in it
    otherwise; so 192 yields none, 191 yields one and 0 yields one.
    When the duration probe or the ffprobe call for the bit rate raises,
    the report holds no bit rate and no issue of the bit-rate check. *)
Theorem bitrate_threshold (w : World) (f : string) :
  (forall b,
     bitrate (analyze_audio_file w f) = Some b ->
     (In (bitrate_issue b) (issues (analyze_audio_file w f)) <-> b < 192)
     /\ existsb is_bitrate_issue (issues (analyze_audio_file w f)) = (b <? 192))
  /\ (forall d stdout,
        probe_duration w f = inr d ->
        probe_bit_rate w f = inr stdout ->
        bitrate (analyze_audio_file w f) = Some (kbps stdout)
        /\ (Py.int (Py.strip stdout) = None -> kbps stdout = 0))
  /\ (forall e,
        probe_duration w f = inl e
        \/ (exists d, probe_duration w f = inr d /\ probe_bit_rate w f = inl e) ->
        bitrate (analyze_audio_file w f) = None
        /\ existsb is_bitrate_issue (issues (analyze_audio_file w f)) = false).
Proof.
  destruct (fields_named f) as (_ & Hbit & _).
  split; [| split].
  - intros b.
    destruct (analyze_audio_file_analysis w f)
      as [e He | d e Hd He | d b0 e Hd Hb He | d b0 s Hd Hb Hs].
    + cbn [bitrate add_issue]. rewrite Hbit. discriminate.
    + cbn [bitrate add_issue]. rewrite bitrate_duration_check, Hbit. discriminate.
    + cbn [bitrate issues add_issue]. rewrite bitrate_bitrate_check.
      intros Heq; inversion Heq; subst b.
      destruct (bitrate_issue_after_check w f d (kbps b0)) as [Hin Hex].
      rewrite existsb_app, in_app_iff, Hex. cbn [In existsb].
      rewrite orb_false_r. split; [| reflexivity].
      rewrite <- Hin. intuition discriminate.
    + destruct (fields_probed w f d b0 s) as (Fb & _). rewrite Fb.
      intros Heq; inversion Heq; subst b.
      destruct (bitrate_issue_after_check w f d (kbps b0)) as [Hin Hex].
      unfold probed. cbn [issues add_issue].
      rewrite issues_container_check. cbn [issues set_channels].
      rewrite issues_sample_rate_check.
      rewrite !existsb_app, !in_app_iff, Hex.
      destruct (negb _); destruct (Py.endswith _ _); cbn [In existsb];
        rewrite ?orb_false_r; (split; [| reflexivity]);
        rewrite <- Hin; intuition discriminate.
  - intros d stdout Hd Hb. split; [| apply kbps_unparsable].
    destruct (probe_sample_rate w f) as [e | s] eqn:Hs.
    + rewrite (analyze_sample_rate_raises _ _ _ _ _ Hd Hb Hs).
      cbn [bitrate add_issue]. apply bitrate_bitrate_check.
    + rewrite (analyze_all_probed _ _ _ _ _ Hd Hb Hs).
      apply fields_probed.
  - intros e [He | (d & Hd & He)].
    + rewrite (analyze_duration_raises _ _ _ He). explicit_issues.
      cbn [bitrate add_issue]. split; [exact Hbit |].
      now rewrite existsb_app, no_bitrate_issue_in_filename_issues.
    + rewrite (analyze_bit_rate_raises _ _ _ _ Hd He). explicit_issues.
      cbn [bitrate add_issue]. rewrite bitrate_duration_check.
      split; [exact Hbit |].
      rewrite !existsb_app, no_bitrate_issue_in_filename_issues.
      now destruct (_ <? _)%float.
Qed.

Lemma bitrate_threshold_witness :
  (bitrate (analyze_audio_file studio "book/book_master/01_Chapter_1.mp3") = Some 192
   /\ ~ In (bitrate_issue 192)
          (issues (analyze_audio_file studio "book/book_master/01_Chapter_1.mp3")))
  /\ (bitrate (analyze_audio_file studio "book/06_Chapter_6.mp3") = Some 191
      /\ In (bitrate_issue 191)
            (issues (analyze_audio_file studio "book/06_Chapter_6.mp3")))
  /\ (bitrate (analyze_audio_file studio "book/05_Chapter_5.mp3") = Some 0
      /\ In (bitrate_issue 0)
            (issues (analyze_audio_file studio "book/05_Chapter_5.mp3"))).
Proof.
  split; [| split]; (split; [reflexivity |]).
  - intros H.
    apply (bitrate_threshold studio "book/book_master/01_Chapter_1.mp3") in H;
      [lia | reflexivity].
  - apply (bitrate_threshold studio "book/06_Chapter_6.mp3"); [reflexivity | lia].
  - apply (bitrate_threshold studio "book/05_Chapter_5.mp3"); [reflexivity | lia].
Defined.

(** C5 as stated fails.  In one world ffprobe prints N/A for the duration
    of a file and 128000 for its bit rate: the probed bit rate is 128
    kbps, below 192, and the report holds no bit rate and no issue of the
    bit-rate check.  In another the ffprobe call for the bit rate exits
    with status 1: the failure is not normalized to 0, and the report
    holds no issue of the bit-rate check either. *)
Lemma bitrate_threshold_counterexample :
  (probe_bit_rate low_rate_no_duration "book/09_Chapter_9.mp3" = inr "128000"%string
   /\ kbps "128000" = 128
   /\ bitrate (analyze_audio_file low_rate_no_duration "book/09_Chapter_9.mp3") = None
   /\ existsb is_bitrate_issue
        (issues (analyze_audio_file low_rate_no_duration "book/09_Chapter_9.mp3"))
      = false)
  /\ (subprocess_run bit_rate_query_fails
        (ffprobe_stream "bit_rate" "book/02_Chapter_2.mp3")
      = Exits 1 EmptyString "Invalid data found when processing input"
      /\ bitrate (analyze_audio_file bit_rate_query_fails "book/02_Chapter_2.mp3") = None
      /\ existsb is_bitrate_issue
           (issues (analyze_audio_file bit_rate_query_fails "book/02_Chapter_2.mp3"))
         = false).
Proof. repeat split; vm_compute; reflexivity. Qed.

(** ** The filename checks *)

Lemma analysis_issue_kinds w f r x :
  analysis w f r -> In x (issues r) -> In x (filename_issues f) \/ engine_issue w x.
Proof.
  unfold engine_issue.
  intros Hr; destruct Hr; explicit_issues; intros Hx; issue_cases Hx.
  all: repeat match goal with
         | H : _ \/ _ |- _ => destruct H
         | H : False |- _ => contradiction
         end.
  all: try (left; assumption); right; subst x; eauto 10.
Qed.

Lemma filename_rest_of_class s : filename_chars s = true -> filename_rest s = true.
Proof.
  induction s as [| c s IH]; simpl; [reflexivity |].
  intros H. apply andb_prop in H as [Hc Hs]. now rewrite Hc, IH.
Qed.

(** A non-empty string of characters of the class matches the pattern. *)
Lemma re_match_filename_of_class s :
  s <> EmptyString -> filename_chars s = true -> re_match_filename s = true.
Proof.
  destruct s as [| c s]; [contradiction |]. simpl. intros _ H.
  apply andb_prop in H as [Hc Hs]. now rewrite Hc, filename_rest_of_class.
Qed.

(** C8: when the stem of the filename matches [^[a-zA-Z0-9_\- ]+$] and
    holds a digit or, lower-cased, one of the chapter keywords, the
    report holds neither the special-character issue nor the
    missing-chapter-information issue. *)
Theorem filename_issues_absent (w : World) (f : string) :
  re_match_filename (filename_without_ext f) = true ->
  Py.any_isdigit (filename_without_ext f) = true
  \/ (exists keyword,
        In keyword chapter_indicators
        /\ Py.contains keyword (Py.lower (filename_without_ext f)) = true) ->
  ~ In special_characters_issue (issues (analyze_audio_file w f))
  /\ ~ In chapter_information_issue (issues (analyze_audio_file w f)).
Proof.
  intros Hmatch Hmarker.
  assert (Hnone : filename_issues f = []).
  { unfold filename_issues. rewrite Hmatch. cbn [negb app].
    destruct Hmarker as [Hdigit | (keyword & Hin & Hsub)].
    - rewrite Hdigit. now rewrite andb_false_r.
    - assert (Hany : has_chapter_indicator (filename_without_ext f) = true).
      { unfold has_chapter_indicator. apply existsb_exists. now exists keyword. }
      now rewrite Hany. }
  pose proof (analyze_audio_file_analysis w f) as Hr.
  split; intros H; destruct (analysis_issue_kinds _ _ _ _ Hr H) as [Hname | Hengine].
  - rewrite Hnone in Hname. contradiction.
  - unfold engine_issue in Hengine.
    destruct Hengine as [[d E] | [[b E] | [[s E] | [E | [E | [e E]]]]]]; discriminate E.
  - rewrite Hnone in Hname. contradiction.
  - unfold engine_issue in Hengine.
    destruct Hengine as [[d E] | [[b E] | [[s E] | [E | [E | [e E]]]]]]; discriminate E.
Qed.

Lemma filename_issues_absent_witness :
  ~ In special_characters_issue
      (issues (analyze_audio_file studio "book/01_Chapter_1.wav"))
  /\ ~ In chapter_information_issue
         (issues (analyze_audio_file studio "book/01_Chapter_1.wav")).
Proof.
  apply (filename_issues_absent studio "book/01_Chapter_1.wav").
  - reflexivity.
  - left. reflexivity.
Defined.

(** ** The aggregator's categories *)

(** C7: the [if] / [elif] chain counts an issue in the first category of
    the fixed order (audio level, peak, noise floor, room tone / silence,
    format, duration, filename / chapter) one of whose terms occurs in
    the lower-cased issue, and in no other: each counter grows by one
    exactly for that category, the total grows by at most one, and an
    issue that matches no term changes nothing. *)
Theorem first_matching_category_wins (c : IssueCategories.t) (issue : string) :
  (forall k, counter k (count_issue c issue) = (counter k c + bump k issue)%nat)
  /\ (IssueCategories.total (count_issue c issue) <= IssueCategories.total c + 1)%nat
  /\ (IssueCategories.total (count_issue c issue)
      = IssueCategories.total c + match classify issue with Some _ => 1 | None => 0 end)%nat
  /\ (classify issue = None <-> count_issue c issue = c).
Proof.
  destruct c as [al pk nf rt fm du fn].
  unfold bump, classify, category_terms, count_issue, IssueCategories.total, any_term.
  cbn [find snd fst option_map existsb].
  rewrite ?orb_false_r.
  repeat match goal with
    | |- context [if ?b then _ else _] =>
        lazymatch type of b with
        | bool => destruct b
        end
    end;
    cbn [option_map fst counter IssueCategories.audio_level
         IssueCategories.peak_level IssueCategories.noise_floor
         IssueCategories.room_tone IssueCategories.format
         IssueCategories.duration IssueCategories.filename].
  all: split; [intros k; destruct k; cbn; lia |].
  all: split; [lia |].
  all: split; [lia |].
  all: split; intros H; try discriminate H; try reflexivity.
  all: exfalso; inversion H; lia.
Qed.

Lemma count_issue_channel_issue current target c :
  count_issue c (channel_issue current target) = c.
Proof. destruct c, current, target; vm_compute; reflexivity. Qed.

Lemma count_results_not_compliant c r :
  compliant r = false -> count_results c r = fold_left count_issue (issues r) c.
Proof. unfold count_results. now intros ->. Qed.

Lemma count_results_channel_issue current target c r :
  compliant r = false ->
  count_results c (add_issue (channel_issue current target) r) = count_results c r.
Proof.
  intros Hr. rewrite (count_results_not_compliant c r Hr).
  unfold count_results. cbn [compliant issues add_issue negb].
  now rewrite fold_left_app; cbn [fold_left]; rewrite count_issue_channel_issue.
Qed.

Lemma issue_categories_from (c : IssueCategories.t) reports k f :
  (forall r, compliant r = false -> forall c', count_results c' (f r) = count_results c' r) ->
  Forall (fun kv => compliant (snd kv) = false) reports ->
  fold_left (fun c kv => count_results c (snd kv)) (dict_update reports k f) c
  = fold_left (fun c kv => count_results c (snd kv)) reports c.
Proof.
  intros Hf Hall. revert c.
  induction Hall as [| [k0 r0] l H0 Hl IH]; intros c; simpl; [reflexivity |].
  destruct (k0 =? k)%string; simpl.
  - now rewrite (Hf r0 H0).
  - apply IH.
Qed.

(** C10: the channel-layout issue the driver appends holds none of the
    aggregator's terms, whatever the two layouts: it is counted in no
    category, adding it to an engine report leaves that report's counts
    as they were, and adding it to a report of a dictionary of
    non-compliant reports leaves the histogram as it was. *)
Theorem channel_issue_is_not_counted (current target : ChannelFormat) :
  classify (channel_issue current target) = None
  /\ (forall c, count_issue c (channel_issue current target) = c)
  /\ (forall w f c,
        count_results c (add_issue (channel_issue current target)
                                   (analyze_audio_file w f))
        = count_results c (analyze_audio_file w f))
  /\ (forall reports k,
        Forall (fun kv => compliant (snd kv) = false) reports ->
        issue_categories
          (dict_update reports k (add_issue (channel_issue current target)))
        = issue_categories reports).
Proof.
  split; [destruct current, target; vm_compute; reflexivity |].
  split; [intros c; apply count_issue_channel_issue |].
  split.
  - intros w f c. apply count_results_channel_issue, analyze_not_compliant.
  - intros reports k Hall. unfold issue_categories.
    apply issue_categories_from; [| exact Hall].
    intros r Hr c'. now apply count_results_channel_issue.
Qed.

Lemma channel_issue_is_not_counted_witness :
  issue_categories
    (dict_update (reports (process_files studio (set_audio_files studio_files init)))
       "book/01_Chapter_1.wav" (add_issue (channel_issue Stereo Mono)))
  = issue_categories (reports (process_files studio (set_audio_files studio_files init))).
Proof.
  apply (channel_issue_is_not_counted Stereo Mono).
  repeat constructor.
Defined.

(** ** The channel policy *)

Lemma analyze_step_target w self f :
  target_channel_format (analyze_step w self f) = target_channel_format self.
Proof.
  unfold analyze_step. cbn [target_channel_format set_reports].
  destruct (target_channel_format self) as [target |] eqn:Htarget;
    [destruct (negb _) |]; cbn [target_channel_format set_reports]; assumption.
Qed.

Lemma analysis_loop_target w files self :
  target_channel_format (fold_left (analyze_step w) files self)
  = target_channel_format self.
Proof.
  revert self. induction files as [| f files IH]; intros self; simpl.
  - reflexivity.
  - now rewrite IH, analyze_step_target.
Qed.

Lemma process_files_target w self first rest :
  audio_files self = first :: rest ->
  target_channel_format (process_files w self)
  = Some (get_audio_channel_format w first).
Proof.
  unfold process_files, determine_target_channel_format. intros ->.
  cbn [fst audio_files set_target_channel_format].
  now rewrite analysis_loop_target.
Qed.

(** C2 (as amended): the policy is assigned by
    [determine_target_channel_format] alone, from the probed layout of
    the first file of the current list, at the start of each analysis
    pass.  Evaluating a file, or any run of files, leaves it unchanged,
    and so does remediation when no file is remediated; the re-analysis
    pass sets it again, to the probed layout of the first remediated
    output. *)
Theorem channel_policy (w : World) (self : Processor) :
  (forall f,
     target_channel_format (analyze_step w self f) = target_channel_format self)
  /\ (forall files,
        target_channel_format (fold_left (analyze_step w) files self)
        = target_channel_format self)
  /\ (forall first rest,
        audio_files self = first :: rest ->
        target_channel_format (process_files w self)
        = Some (get_audio_channel_format w first))
  /\ (forall dir first rest final,
        audio_files self = first :: rest ->
        process_all_files w self dir = Some final ->
        match remediate_all w self (chosen_output_dir first dir) (first :: rest) with
        | [] => target_channel_format final = target_channel_format self
        | output :: _ =>
            target_channel_format final = Some (get_audio_channel_format w output)
        end).
Proof.
  split; [intros f; apply analyze_step_target |].
  split; [intros files; apply analysis_loop_target |].
  split; [intros first rest; apply process_files_target |].
  intros dir first rest final Hfiles Hrun.
  unfold process_all_files in Hrun. rewrite Hfiles in Hrun.
  destruct (makedirs w _); [discriminate |].
  cbn [audio_files set_output_dir] in Hrun. rewrite Hfiles in Hrun.
  change (remediate_all w (set_output_dir (Some (chosen_output_dir first dir)) self))
    with (remediate_all w self) in Hrun.
  destruct (remediate_all w self _ _) as [| output outputs];
    inversion Hrun; subst final.
  - reflexivity.
  - now apply process_files_target with (rest := outputs).
Qed.

Lemma channel_policy_witness :
  target_channel_format (process_files studio (set_audio_files studio_files init))
  = Some Stereo
  /\ exists final,
       main studio studio_files = Some final
       /\ target_channel_format final
          = Some (get_audio_channel_format studio "book/book_master/01_Chapter_1.mp3").
Proof.
  destruct (channel_policy studio (set_audio_files studio_files init))
    as (_ & _ & Hpass & _).
  split; [apply (Hpass "book/01_Chapter_1.wav" ["book/02_Chapter_2.mp3"%string] eq_refl) |].
  destruct (channel_policy studio
              (process_files studio (set_audio_files studio_files init)))
    as (_ & _ & _ & Hrun).
  destruct (main studio studio_files) as [final |] eqn:Hmain;
    [| vm_compute in Hmain; discriminate].
  exists final. split; [reflexivity |].
  apply (Hrun None "book/01_Chapter_1.wav" ["book/02_Chapter_2.mp3"%string] final);
    [vm_compute; reflexivity | exact Hmain].
Defined.

(** C2 as stated fails: the first file probes stereo, so the first pass
    sets the policy to stereo; its remediated output probes mono, and the
    re-analysis pass sets the policy to mono. *)
Lemma channel_policy_counterexample :
  target_channel_format
    (process_files one_channel_outputs (set_audio_files studio_files init))
  = Some Stereo
  /\ option_map target_channel_format (main one_channel_outputs studio_files)
     = Some (Some Mono).
Proof. split; vm_compute; reflexivity. Qed.

(** ** Remediation failures *)

Lemma process_audio_encoder_exit w self f out returncode stdout stderr :
  subprocess_run w (encode_command self f out) = Exits returncode stdout stderr ->
  returncode <> 0 ->
  process_audio w self f out
  = (false, ("Error running ffmpeg: " ++ stderr)%string, None).
Proof.
  unfold process_audio. intros Hrun Hcode.
  destruct (output_name f) as [file_name issues_fixed] eqn:Hname.
  rewrite Hrun.
  destruct (Z.eqb_spec returncode 0) as [H0 | _]; [contradiction | reflexivity].
Qed.

Lemma remediation_loop_from w self out files processed :
  fold_left (remediate_step w self out) files processed
  = processed ++ remediate_all w self out files.
Proof.
  unfold remediate_all. revert processed.
  induction files as [| f files IH]; intros processed; simpl.
  - now rewrite app_nil_r.
  - rewrite IH, (IH (remediate_step w self out [] f)).
    unfold remediate_step.
    destruct (process_audio w self f out) as [[[|] message] [output |]];
      try destruct (output =? "")%string; cbn [app]; now rewrite <- ?app_assoc.
Qed.

Lemma remediate_all_app w self out files files' :
  remediate_all w self out (files ++ files')
  = remediate_all w self out files ++ remediate_all w self out files'.
Proof.
  unfold remediate_all at 1. rewrite fold_left_app.
  fold (remediate_all w self out files). apply remediation_loop_from.
Qed.

Lemma remediate_all_failed w self out f files message :
  process_audio w self f out = (false, message, None) ->
  remediate_all w self out (f :: files) = remediate_all w self out files.
Proof.
  intros Hfail. unfold remediate_all. simpl.
  unfold remediate_step at 2. now rewrite Hfail.
Qed.

Lemma analyze_step_audio_files w self f :
  audio_files (analyze_step w self f) = audio_files self.
Proof.
  unfold analyze_step. cbn [target_channel_format set_reports].
  destruct (target_channel_format self); [destruct (negb _) |]; reflexivity.
Qed.

Lemma analysis_loop_audio_files w files self :
  audio_files (fold_left (analyze_step w) files self) = audio_files self.
Proof.
  revert self. induction files as [| f files IH]; intros self; simpl.
  - reflexivity.
  - now rewrite IH, analyze_step_audio_files.
Qed.

Lemma process_files_audio_files w self :
  audio_files (process_files w self) = audio_files self.
Proof.
  unfold process_files, determine_target_channel_format.
  destruct (audio_files self) as [| first rest] eqn:Hfiles; [exact Hfiles |].
  cbn [fst audio_files set_target_channel_format]. rewrite Hfiles.
  now rewrite analysis_loop_audio_files.
Qed.

(** C6 (as amended): when the encoder exits non-zero for a file,
    [process_audio] returns a failure whose message carries the encoder's
    diagnostic text; the remediation loop goes on with the files after
    it, and its result is that of the batch without the file.  When at
    least one other file is remediated, the re-analysis pass runs on the
    remediated outputs alone, and the reports the final report is
    written from are exactly theirs.  When no file is remediated there is
    no re-analysis pass, and the reports stay those of the first pass. *)
Theorem failed_encode_is_skipped
  (w : World) (self : Processor) (dir : option string)
  (before after : list string) (f : string)
  (returncode : Z) (stdout stderr : string) (final : Processor) :
  let out := chosen_output_dir (hd f before) dir in
  audio_files self = before ++ f :: after ->
  subprocess_run w (encode_command self f out) = Exits returncode stdout stderr ->
  returncode <> 0 ->
  process_all_files w self dir = Some final ->
  process_audio w self f out
  = (false, ("Error running ffmpeg: " ++ stderr)%string, None)
  /\ remediate_all w self out (before ++ f :: after)
     = remediate_all w self out before ++ remediate_all w self out after
  /\ (remediate_all w self out (before ++ after) <> [] ->
      audio_files final = remediate_all w self out (before ++ after)
      /\ forall k,
           In k (keys (reports final))
           <-> In k (remediate_all w self out (before ++ after)))
  /\ (remediate_all w self out (before ++ after) = [] ->
      reports final = reports self /\ audio_files final = audio_files self).
Proof.
  intros out Hfiles Hexit Hcode Hrun.
  pose proof (process_audio_encoder_exit _ _ _ _ _ _ _ Hexit Hcode) as Hfail.
  assert (Hskip : remediate_all w self out (before ++ f :: after)
                  = remediate_all w self out (before ++ after)).
  { now rewrite !remediate_all_app, (remediate_all_failed _ _ _ _ _ _ Hfail). }
  split; [exact Hfail |].
  split; [now rewrite Hskip, remediate_all_app |].
  unfold process_all_files in Hrun. rewrite Hfiles in Hrun.
  assert (Hfirst : exists rest, before ++ f :: after = hd f before :: rest)
    by (destruct before; simpl; eauto).
  destruct Hfirst as [rest Hfirst]. rewrite Hfirst in Hrun.
  fold out in Hrun.
  destruct (makedirs w out); [discriminate |].
  cbn [audio_files set_output_dir] in Hrun. rewrite Hfiles in Hrun.
  change (remediate_all w (set_output_dir (Some out) self))
    with (remediate_all w self) in Hrun.
  rewrite Hskip in Hrun.
  destruct (remediate_all w self out (before ++ after)) as [| output outputs].
  - inversion Hrun; subst final. split; [intros H; contradiction |].
    intros _. split; reflexivity.
  - inversion Hrun; subst final. split; [| discriminate].
    intros _. split.
    + now rewrite process_files_audio_files.
    + intros k. rewrite process_files_keys.
      cbn [audio_files reports set_audio_files set_reports keys map In].
      intuition.
Qed.

Lemma failed_encode_is_skipped_witness :
  process_audio failing_first_encode
    (process_files failing_first_encode (set_audio_files studio_files init))
    "book/01_Chapter_1.wav" "book/book_master"
  = (false, "Error running ffmpeg: Conversion failed!"%string, None)
  /\ exists final,
       main failing_first_encode studio_files = Some final
       /\ audio_files final = ["book/book_master/02_Chapter_2.mp3"%string]
       /\ forall k,
            In k (keys (reports final))
            <-> In k ["book/book_master/02_Chapter_2.mp3"%string].
Proof.
  destruct (main failing_first_encode studio_files) as [final |] eqn:Hmain;
    [| vm_compute in Hmain; discriminate].
  destruct (failed_encode_is_skipped failing_first_encode
              (process_files failing_first_encode (set_audio_files studio_files init))
              None [] ["book/02_Chapter_2.mp3"%string] "book/01_Chapter_1.wav"
              1 EmptyString "Conversion failed!" final)
    as (Hfail & _ & Hsome & _).
  - vm_compute. reflexivity.
  - vm_compute. reflexivity.
  - discriminate.
  - exact Hmain.
  - split; [exact Hfail |].
    exists final. split; [reflexivity |].
    apply Hsome. vm_compute. discriminate.
Defined.

(** C6 as stated fails: the encoder exits with status 1 on the only file
    of the batch; nothing is remediated, no re-analysis pass runs, and
    the final report still has the section of that file, written from
    its first-pass report. *)
Lemma failed_encode_is_skipped_counterexample :
  subprocess_run failing_first_encode
    (encode_command
       (process_files failing_first_encode (set_audio_files first_file_alone init))
       "book/01_Chapter_1.wav" "book/book_master")
  = Exits 1 EmptyString "Conversion failed!"
  /\ option_map
       (fun final =>
          option_map (fun report => map section_file (report_sections report))
                     (generate_report final))
       (main failing_first_encode first_file_alone)
     = Some (Some ["01_Chapter_1.wav"%string]).
Proof. split; vm_compute; reflexivity. Qed.

(** ** Further properties of the engine and of the aggregator *)

(** X1, the sample-rate check: when the engine has a sample rate [s] for the
    file, the sample-rate issue is in the report iff [s] is not 44100;
    the sentinel 0 of an unreadable rate always yields it. *)
Theorem sample_rate_exact (w : World) (f : string) (s : Z) :
  sample_rate (analyze_audio_file w f) = Some s ->
  (In (sample_rate_issue s) (issues (analyze_audio_file w f)) <-> s <> 44100).
Proof.
  destruct (fields_named f) as (_ & _ & Hrate & _).
  destruct (analyze_audio_file_analysis w f)
    as [e He | d e Hd He | d b e Hd Hb He | d b s0 Hd Hb Hs].
  - cbn [sample_rate add_issue]. rewrite Hrate. discriminate.
  - cbn [sample_rate add_issue]. rewrite sample_rate_duration_check, Hrate.
    discriminate.
  - cbn [sample_rate add_issue].
    rewrite sample_rate_bitrate_check, sample_rate_duration_check, Hrate.
    discriminate.
  - destruct (fields_probed w f d b s0) as (_ & Fs & _). rewrite Fs.
    intros Heq; inversion Heq; subst s.
    assert (Hname : ~ In (sample_rate_issue (int_or_zero s0)) (filename_issues f))
      by (apply not_in_filename_issues; discriminate).
    rewrite issues_probed, !in_app_iff.
    change (required_sample_rate audio_requirements) with 44100.
    destruct (Z.eqb_spec (int_or_zero s0) 44100) as [Heq0 | Hne];
      destruct (_ <? _)%float; destruct (kbps b <? _); destruct (Py.endswith _ _);
      cbn [negb In]; split; intros H; try contradiction; try exact Hne;
      try (exfalso; intuition discriminate).
    all: right; right; right; left; now left.
Qed.

Lemma sample_rate_exact_witness :
  In (sample_rate_issue 48000)
     (issues (analyze_audio_file studio "book/01_Chapter_1.wav"))
  /\ In (sample_rate_issue 0)
        (issues (analyze_audio_file studio "book/05_Chapter_5.mp3")).
Proof.
  split.
  - apply (sample_rate_exact studio "book/01_Chapter_1.wav" 48000);
      [reflexivity | discriminate].
  - apply (sample_rate_exact studio "book/05_Chapter_5.mp3" 0);
      [reflexivity | discriminate].
Defined.

(** A file named [track.mp3] has neither digit nor chapter keyword: the
    missing-chapter-information issue is in its report whatever the
    probes say. *)
Theorem track_lacks_chapter_information (w : World) :
  In chapter_information_issue (issues (analyze_audio_file w "track.mp3")).
Proof.
  assert (Hname : filename_issues "track.mp3" = [chapter_information_issue])
    by (vm_compute; reflexivity).
  destruct (analyze_audio_file_analysis w "track.mp3"); explicit_issues;
    rewrite Hname, ?in_app_iff; cbn [In]; tauto.
Qed.

(** The two-file scenario of the specification: the policy is stereo,
    from the first file; the first file gets the bit-rate, sample-rate,
    WAV and normalization issues and no filename or duration issue; the
    second gets the normalization issue and the conversion to stereo;
    both are non-compliant. *)
Example two_file_scenario :
  let first_pass := process_files studio (set_audio_files studio_files init) in
  target_channel_format first_pass = Some Stereo
  /\ map (fun kv => (fst kv, issues (snd kv), compliant (snd kv))) (reports first_pass)
     = [("book/01_Chapter_1.wav"%string,
         ["Bitrate is 128kbps, must be at least 192kbps CBR"%string;
          "Sample rate is 48000Hz, must be 44100Hz"%string;
          "WAV format needs conversion to MP3"%string;
          "Audio levels need to be checked and normalized"%string],
         false);
        ("book/02_Chapter_2.mp3"%string,
         ["Audio levels need to be checked and normalized"%string;
          "Channel format: mono, needs conversion to stereo"%string],
         false)].
Proof. split; vm_compute; reflexivity. Qed.

Lemma counter_count_issue k c issue :
  counter k (count_issue c issue) = (counter k c + bump k issue)%nat.
Proof.
  destruct c as [al pk nf rt fm du fn].
  unfold bump, classify, category_terms, count_issue, any_term.
  cbn [find snd fst option_map existsb].
  rewrite ?orb_false_r.
  repeat match goal with
    | |- context [if ?b then _ else _] =>
        lazymatch type of b with
        | bool => destruct b
        end
    end;
    cbn [option_map fst]; destruct k; cbn; lia.
Qed.

Lemma counter_count_issues k l c :
  counter k (fold_left count_issue l c) = (counter k c + classified_as k l)%nat.
Proof.
  unfold classified_as. revert c.
  induction l as [| issue l IH]; intros c; simpl; [lia |].
  rewrite IH, counter_count_issue. unfold bump.
  destruct (classify issue) as [k' |]; [destruct (category_eqb k k') |]; simpl; lia.
Qed.

(** X17, the histogram: each counter is the number of issues of the
    non-compliant reports that fall in its category. *)
Theorem histogram_counts_classified_issues (k : Category)
  (reports : list (string * Results)) :
  counter k (issue_categories reports) = classified_in_reports k reports.
Proof.
  unfold issue_categories.
  assert (H : forall c,
             counter k (fold_left (fun c kv => count_results c (snd kv)) reports c)
             = (counter k c + classified_in_reports k reports)%nat).
  { induction reports as [| kv reports IH]; intros c; simpl; [lia |].
    rewrite IH. unfold count_results.
    destruct (compliant (snd kv)); cbn [negb]; [lia |].
    rewrite counter_count_issues. lia. }
  rewrite H. destruct k; reflexivity.
Qed.

(** ** The engine's checks, one by one *)

Lemma in_filename_issues x f :
  In x (filename_issues f)
  <-> (re_match_filename (filename_without_ext f) = false
       /\ x = special_characters_issue)
      \/ (has_chapter_indicator (filename_without_ext f) = false
          /\ Py.any_isdigit (filename_without_ext f) = false
          /\ x = chapter_information_issue).
Proof.
  unfold filename_issues. cbv zeta.
  destruct (re_match_filename _); destruct (has_chapter_indicator _);
    destruct (Py.any_isdigit _); cbn [negb andb app In]; intuition congruence.
Qed.

Lemma filename_issues_reported w f r x :
  analysis w f r -> In x (filename_issues f) -> In x (issues r).
Proof.
  intros Hr Hx. destruct Hr; explicit_issues; rewrite ?in_app_iff; tauto.
Qed.

Lemma engine_issue_not_filename_issue w x :
  engine_issue w x ->
  x <> special_characters_issue /\ x <> chapter_information_issue.
Proof.
  unfold engine_issue.
  intros [[d E] | [[b E] | [[s E] | [E | [E | [e E]]]]]]; subst x;
    split; discriminate.
Qed.

(** X2: the two filename checks depend on the name alone, whatever the
    probes do.  The special-character issue is in the report iff the
    stem does not match the pattern; the missing-chapter-information
    issue is in it iff the stem holds no chapter keyword (lower-cased)
    and no digit. *)
Theorem filename_checks (w : World) (f : string) :
  (In special_characters_issue (issues (analyze_audio_file w f))
   <-> re_match_filename (filename_without_ext f) = false)
  /\ (In chapter_information_issue (issues (analyze_audio_file w f))
      <-> has_chapter_indicator (filename_without_ext f) = false
          /\ Py.any_isdigit (filename_without_ext f) = false).
Proof.
  pose proof (analyze_audio_file_analysis w f) as Hr.
  split; split.
  - intros H. destruct (analysis_issue_kinds _ _ _ _ Hr H) as [Hname | Hengine].
    + apply in_filename_issues in Hname.
      destruct Hname as [[Hm _] | (_ & _ & E)]; [exact Hm | discriminate E].
    + now apply engine_issue_not_filename_issue in Hengine.
  - intros Hm. apply (filename_issues_reported _ _ _ _ Hr).
    apply in_filename_issues. now left.
  - intros H. destruct (analysis_issue_kinds _ _ _ _ Hr H) as [Hname | Hengine].
    + apply in_filename_issues in Hname.
      destruct Hname as [[_ E] | (Hc & Hd & _)]; [discriminate E | now split].
    + now apply engine_issue_not_filename_issue in Hengine.
  - intros [Hc Hd]. apply (filename_issues_reported _ _ _ _ Hr).
    apply in_filename_issues. now right.
Qed.

(** X3: when no probe raises, the engine's issues are exactly these, in
    the fixed detection order: filename characters, chapter information,
    duration, bit rate, sample rate, WAV container, normalization; so a
    report holds between one and seven issues. *)
Theorem issues_in_detection_order (w : World) (f : string) (d : float) (b s : string) :
  probe_duration w f = inr d ->
  probe_bit_rate w f = inr b ->
  probe_sample_rate w f = inr s ->
  issues (analyze_audio_file w f)
  = (if re_match_filename (filename_without_ext f)
     then [] else [special_characters_issue])
    ++ (if has_chapter_indicator (filename_without_ext f)
           || Py.any_isdigit (filename_without_ext f)
        then [] else [chapter_information_issue])
    ++ (if (120 <? d / 60)%float then [duration_issue w (d / 60)%float] else [])
    ++ (if kbps b <? 192 then [bitrate_issue (kbps b)] else [])
    ++ (if int_or_zero s =? 44100 then [] else [sample_rate_issue (int_or_zero s)])
    ++ (if Py.endswith ".wav" (Py.lower f) then [wav_issue] else [])
    ++ [normalization_issue]
  /\ (1 <= List.length (issues (analyze_audio_file w f)) <= 7)%nat.
Proof.
  intros Hd Hb Hs. rewrite (analyze_all_probed _ _ _ _ _ Hd Hb Hs), issues_probed.
  unfold filename_issues. cbv zeta.
  change (max_duration audio_requirements) with 120%float.
  change (min_bitrate audio_requirements) with 192.
  change (required_sample_rate audio_requirements) with 44100.
  destruct (re_match_filename _); destruct (has_chapter_indicator _);
    destruct (Py.any_isdigit _); destruct (_ <? _)%float; destruct (kbps b <? 192);
    destruct (int_or_zero s =? 44100); destruct (Py.endswith _ _);
    cbn [negb andb orb app List.length]; split; try reflexivity; lia.
Qed.

Lemma issues_in_detection_order_witness :
  issues (analyze_audio_file studio "book/01_Chapter_1.wav")
  = [bitrate_issue 128; sample_rate_issue 48000; wav_issue; normalization_issue].
Proof.
  destruct (issues_in_detection_order studio "book/01_Chapter_1.wav"
              600%float "128000" "48000" eq_refl eq_refl eq_refl) as [H _].
  rewrite H. vm_compute. reflexivity.
Defined.

Lemma duration_minutes_duration_check w d r :
  duration_minutes (duration_check w d r) = Some (d / 60)%float.
Proof. unfold duration_check. now destruct (_ <? _)%float. Qed.

Lemma duration_minutes_bitrate_check b r :
  duration_minutes (bitrate_check b r) = duration_minutes r.
Proof. unfold bitrate_check. now destruct (b <? _). Qed.

Lemma duration_minutes_sample_rate_check s r :
  duration_minutes (sample_rate_check s r) = duration_minutes r.
Proof. unfold sample_rate_check. now destruct (negb _). Qed.

Lemma duration_minutes_container_check f r :
  duration_minutes (container_check f r) = duration_minutes r.
Proof. unfold container_check. now destruct (Py.endswith _ _). Qed.

Lemma no_duration_issue_in_filename_issues f :
  existsb is_duration_issue (filename_issues f) = false.
Proof.
  unfold filename_issues.
  destruct (negb (re_match_filename _)); destruct (_ && _); reflexivity.
Qed.

(** X4: when the engine has a duration [m] in minutes for the file, an
    issue of the duration check is in the report iff [m > 120] as
    floating-point numbers, and it is then the issue that prints [m];
    exactly 120 minutes, and a duration that is not a number (NaN),
    yield none. *)
Theorem duration_limit (w : World) (f : string) (m : float) :
  duration_minutes (analyze_audio_file w f) = Some m ->
  existsb is_duration_issue (issues (analyze_audio_file w f)) = (120 <? m)%float
  /\ ((120 <? m)%float = true -> In (duration_issue w m) (issues (analyze_audio_file w f)))
  /\ (m = 120%float \/ m = nan -> existsb is_duration_issue
                                   (issues (analyze_audio_file w f)) = false).
Proof.
  intros Hm.
  assert (Hmain :
    existsb is_duration_issue (issues (analyze_audio_file w f)) = (120 <? m)%float
    /\ ((120 <? m)%float = true ->
        In (duration_issue w m) (issues (analyze_audio_file w f)))).
  { revert Hm. destruct (fields_named f) as (Hdur & _).
    destruct (analyze_audio_file_analysis w f)
      as [e He | d e Hd He | d b e Hd Hb He | d b s Hd Hb Hs].
    - cbn [duration_minutes add_issue]. rewrite Hdur. discriminate.
    - cbn [duration_minutes add_issue]. rewrite duration_minutes_duration_check.
      intros Heq; inversion Heq; subst m. explicit_issues.
      change (max_duration audio_requirements) with 120%float.
      rewrite !existsb_app, no_duration_issue_in_filename_issues, !in_app_iff.
      destruct (120 <? d / 60)%float; cbn [existsb In orb];
        split; try reflexivity; try discriminate.
      intros _. left; right; now left.
    - cbn [duration_minutes add_issue].
      rewrite duration_minutes_bitrate_check, duration_minutes_duration_check.
      intros Heq; inversion Heq; subst m. explicit_issues.
      change (max_duration audio_requirements) with 120%float.
      rewrite !existsb_app, no_duration_issue_in_filename_issues, !in_app_iff.
      destruct (120 <? d / 60)%float; destruct (kbps b <? _); cbn [existsb In orb];
        split; try reflexivity; try discriminate.
      all: intros _; left; left; right; now left.
    - unfold probed at 1. cbn [duration_minutes add_issue].
      rewrite duration_minutes_container_check. cbn [duration_minutes set_channels].
      rewrite duration_minutes_sample_rate_check, duration_minutes_bitrate_check,
        duration_minutes_duration_check.
      intros Heq; inversion Heq; subst m. rewrite issues_probed.
      change (max_duration audio_requirements) with 120%float.
      rewrite !existsb_app, no_duration_issue_in_filename_issues, !in_app_iff.
      destruct (120 <? d / 60)%float; destruct (kbps b <? _); destruct (negb _);
        destruct (Py.endswith _ _); cbn [existsb In orb];
        split; try reflexivity; try discriminate.
      all: intros _; right; left; now left. }
  destruct Hmain as [Hex Hin]. split; [exact Hex |]. split; [exact Hin |].
  intros [-> | ->]; rewrite Hex; reflexivity.
Qed.

Lemma file_format_named f : file_format (named f) = None.
Proof.
  unfold named, check_filename.
  destruct (negb (re_match_filename _)); destruct (_ && _); reflexivity.
Qed.

Lemma file_format_duration_check w d r :
  file_format (duration_check w d r) = file_format r.
Proof. unfold duration_check. now destruct (_ <? _)%float. Qed.

Lemma file_format_bitrate_check b r : file_format (bitrate_check b r) = file_format r.
Proof. unfold bitrate_check. now destruct (b <? _). Qed.

Lemma file_format_sample_rate_check s r :
  file_format (sample_rate_check s r) = file_format r.
Proof. unfold sample_rate_check. now destruct (negb _). Qed.

Lemma wav_issue_not_in_filename_issues f : ~ In wav_issue (filename_issues f).
Proof. apply not_in_filename_issues; discriminate. Qed.

(** X5: the WAV check looks at the path alone, lower-cased, and stands
    after the probes: the conversion issue is in the report, and the
    report's file format is wav, iff no probe raises and the path ends
    in [.wav] in any letter case. *)
Theorem wav_container (w : World) (f : string) :
  (In wav_issue (issues (analyze_audio_file w f))
   <-> probes_complete w f = true /\ Py.endswith ".wav" (Py.lower f) = true)
  /\ file_format (analyze_audio_file w f)
     = if probes_complete w f && Py.endswith ".wav" (Py.lower f)
       then Some "wav"%string else None.
Proof.
  pose proof (wav_issue_not_in_filename_issues f) as Hname.
  unfold probes_complete.
  destruct (analyze_audio_file_analysis w f)
    as [e He | d e Hd He | d b e Hd Hb He | d b s Hd Hb Hs].
  - rewrite He. explicit_issues. cbn [file_format add_issue andb].
    rewrite file_format_named, in_app_iff. cbn [In].
    split; [| reflexivity]. split; [intros H | intros [H _]; discriminate H].
    exfalso. intuition discriminate.
  - rewrite Hd, He. explicit_issues. cbn [file_format add_issue andb].
    rewrite file_format_duration_check, file_format_named, !in_app_iff.
    split; [| reflexivity]. split; [intros H | intros [H _]; discriminate H].
    exfalso. destruct (_ <? _)%float; cbn [In] in H; intuition discriminate.
  - rewrite Hd, Hb, He. explicit_issues. cbn [file_format add_issue andb].
    rewrite file_format_bitrate_check, file_format_duration_check,
      file_format_named, !in_app_iff.
    split; [| reflexivity]. split; [intros H | intros [H _]; discriminate H].
    exfalso. destruct (_ <? _)%float; destruct (kbps b <? _); cbn [In] in H;
      intuition discriminate.
  - rewrite Hd, Hb, Hs. rewrite issues_probed, !in_app_iff.
    unfold probed, container_check. cbn [andb].
    destruct (Py.endswith ".wav" (Py.lower f)); cbn [file_format add_issue set_file_format].
    + split; [| reflexivity]. split; [now intros _ |].
      intros _. right; right; right; right; left. now left.
    + cbn [file_format set_channels].
      rewrite file_format_sample_rate_check, file_format_bitrate_check,
        file_format_duration_check, file_format_named.
      split; [| reflexivity]. split; [intros H | intros [_ H]; discriminate H].
      exfalso. destruct (_ <? _)%float; destruct (kbps b <? _); destruct (negb _);
        cbn [In] in H; intuition discriminate.
Qed.

Lemma wav_container_witness :
  In wav_issue (issues (analyze_audio_file studio "book/01_Chapter_1.wav"))
  /\ ~ In wav_issue (issues (analyze_audio_file studio "book/02_Chapter_2.mp3")).
Proof.
  split.
  - apply (wav_container studio "book/01_Chapter_1.wav"). split; reflexivity.
  - intros H. apply (wav_container studio "book/02_Chapter_2.mp3") in H.
    destruct H as [_ H]. vm_compute in H. discriminate H.
Defined.

(** X6: where the channel layout comes from.  When ffprobe prints a
    channel count, the layout is stereo iff the count exceeds 1 and
    eyed3 is not consulted; otherwise it is stereo iff eyed3 reports the
    mode "Stereo", letter for letter, and mono in every other case (no
    file, no info, an exception, or another mode such as joint
    stereo). *)
Theorem channel_format_sources (w : World) (f : string) :
  (forall n,
     probe_channels w f = Some n ->
     get_audio_channel_format w f = if 1 <? n then Stereo else Mono)
  /\ (probe_channels w f = None ->
      (get_audio_channel_format w f = Stereo <-> eyed3_load w f = LoadMode "Stereo"))
  /\ (get_audio_channel_format w f = Stereo
      <-> (exists n, probe_channels w f = Some n /\ 1 < n)
          \/ (probe_channels w f = None /\ eyed3_load w f = LoadMode "Stereo")).
Proof.
  assert (Hcount : forall n, probe_channels w f = Some n ->
                     get_audio_channel_format w f = if 1 <? n then Stereo else Mono).
  { unfold probe_channels, get_audio_channel_format. intros n H.
    destruct (check_output w _) as [e | stdout]; [discriminate |]. now rewrite H. }
  assert (Hfallback : probe_channels w f = None ->
            (get_audio_channel_format w f = Stereo
             <-> eyed3_load w f = LoadMode "Stereo")).
  { unfold probe_channels, get_audio_channel_format, eyed3_channel_format. intros H.
    assert (Hload : (match eyed3_load w f with
                     | LoadMode mode => if (mode =? "Stereo")%string then Stereo else Mono
                     | _ => Mono
                     end = Stereo) <-> eyed3_load w f = LoadMode "Stereo").
    { destruct (eyed3_load w f) as [| | mode]; try (split; discriminate).
      destruct (String.eqb_spec mode "Stereo") as [-> | Hne];
        split; try reflexivity; try discriminate.
      intros E; inversion E; contradiction. }
    destruct (check_output w _) as [e | stdout]; [| rewrite H];
      (destruct (eyed3_load w f) as [| | mode]; exact Hload). }
  split; [exact Hcount |]. split; [exact Hfallback |].
  destruct (probe_channels w f) as [n |] eqn:Hprobe.
  - rewrite (Hcount n eq_refl). destruct (Z.ltb_spec 1 n) as [Hlt | Hge]; split.
    + intros _. left. now exists n.
    + reflexivity.
    + discriminate.
    + intros [(n' & E & Hlt) | [E _]]; [inversion E; lia | discriminate E].
  - rewrite (Hfallback eq_refl). split.
    + intros H. right. now split.
    + intros [(n' & E & _) | [_ H]]; [discriminate E | exact H].
Qed.

Lemma channel_format_sources_witness :
  get_audio_channel_format studio "book/01_Chapter_1.wav" = Stereo
  /\ (get_audio_channel_format studio "book/05_Chapter_5.mp3" = Stereo
      <-> eyed3_load studio "book/05_Chapter_5.mp3" = LoadMode "Stereo").
Proof.
  destruct (channel_format_sources studio "book/01_Chapter_1.wav") as (Hcount & _).
  destruct (channel_format_sources studio "book/05_Chapter_5.mp3") as (_ & Hfallback & _).
  split; [apply (Hcount 2); reflexivity | apply Hfallback; reflexivity].
Defined.

(** ** The reports of an analysis pass, file by file *)

Section DictionaryLookup.

Context {V : Type}.

Lemma dict_get_set_same (d : list (string * V)) k v :
  dict_get (dict_set d k v) k = Some v.
Proof.
  induction d as [| [k0 v0] d IH]; simpl.
  - now rewrite String.eqb_refl.
  - destruct (String.eqb_spec k0 k) as [-> | Hne]; simpl.
    + now rewrite String.eqb_refl.
    + destruct (String.eqb_spec k0 k); [contradiction | exact IH].
Qed.

Lemma dict_get_set_other (d : list (string * V)) k v k' :
  k' <> k -> dict_get (dict_set d k v) k' = dict_get d k'.
Proof.
  intros Hne. induction d as [| [k0 v0] d IH]; simpl.
  - destruct (String.eqb_spec k k'); [congruence | reflexivity].
  - destruct (String.eqb_spec k0 k) as [-> | Hne0]; simpl.
    + destruct (String.eqb_spec k k'); [congruence | reflexivity].
    + destruct (String.eqb_spec k0 k'); [reflexivity | exact IH].
Qed.

Lemma dict_get_update_same (d : list (string * V)) k f :
  dict_get (dict_update d k f) k = option_map f (dict_get d k).
Proof.
  induction d as [| [k0 v0] d IH]; simpl; [reflexivity |].
  destruct (String.eqb_spec k0 k) as [-> | Hne]; simpl.
  - now rewrite String.eqb_refl.
  - destruct (String.eqb_spec k0 k); [contradiction | exact IH].
Qed.

Lemma dict_get_update_other (d : list (string * V)) k f k' :
  k' <> k -> dict_get (dict_update d k f) k' = dict_get d k'.
Proof.
  intros Hne. induction d as [| [k0 v0] d IH]; simpl; [reflexivity |].
  destruct (String.eqb_spec k0 k) as [-> | Hne0]; simpl.
  - destruct (String.eqb_spec k k'); [congruence | reflexivity].
  - destruct (String.eqb_spec k0 k'); [reflexivity | exact IH].
Qed.

(** A new key goes to the end; a present key keeps its place. *)
Lemma keys_dict_set_new (d : list (string * V)) k v :
  ~ In k (keys d) -> keys (dict_set d k v) = keys d ++ [k].
Proof.
  induction d as [| [k0 v0] d IH]; simpl; [reflexivity |].
  intros Hnot. destruct (String.eqb_spec k0 k) as [-> | Hne].
  - exfalso. apply Hnot. now left.
  - simpl. f_equal. apply IH. intros H. apply Hnot. now right.
Qed.

Lemma keys_dict_set_present (d : list (string * V)) k v :
  In k (keys d) -> keys (dict_set d k v) = keys d.
Proof.
  induction d as [| [k0 v0] d IH]; simpl; [contradiction |].
  intros Hin. destruct (String.eqb_spec k0 k) as [-> | Hne]; simpl.
  - reflexivity.
  - f_equal. apply IH. destruct Hin; [contradiction | assumption].
Qed.

End DictionaryLookup.

Lemma analyze_step_report w self f :
  dict_get (reports (analyze_step w self f)) f
  = Some match target_channel_format self with
         | Some target => driver_report w target f
         | None => analyze_audio_file w f
         end.
Proof.
  unfold analyze_step, driver_report. cbn [target_channel_format reports set_reports].
  destruct (target_channel_format self) as [target |];
    [destruct (negb _) |]; cbn [reports set_reports];
    rewrite ?dict_get_update_same, dict_get_set_same; reflexivity.
Qed.

Lemma analyze_step_other_report w self f k :
  k <> f ->
  dict_get (reports (analyze_step w self f)) k = dict_get (reports self) k.
Proof.
  intros Hne. unfold analyze_step. cbn [target_channel_format reports set_reports].
  destruct (target_channel_format self) as [target |];
    [destruct (negb _) |]; cbn [reports set_reports];
    rewrite ?dict_get_update_other, dict_get_set_other; auto.
Qed.

Lemma analysis_loop_other_report w files self k :
  ~ In k files ->
  dict_get (reports (fold_left (analyze_step w) files self)) k
  = dict_get (reports self) k.
Proof.
  revert self. induction files as [| f files IH]; intros self Hnot; simpl.
  - reflexivity.
  - rewrite IH by (intros H; apply Hnot; now right).
    apply analyze_step_other_report. intros ->. apply Hnot. now left.
Qed.

Lemma analysis_loop_report w files self target f :
  target_channel_format self = Some target ->
  In f files ->
  dict_get (reports (fold_left (analyze_step w) files self)) f
  = Some (driver_report w target f).
Proof.
  revert self. induction files as [| f0 files IH]; intros self Htarget Hin; simpl.
  - contradiction.
  - destruct (in_dec string_dec f files) as [Hlater | Hnot].
    + apply IH; [now rewrite analyze_step_target | exact Hlater].
    + destruct Hin as [-> | Hin]; [| contradiction].
      rewrite (analysis_loop_other_report _ _ _ _ Hnot), analyze_step_report.
      now rewrite Htarget.
Qed.

Lemma channel_issue_not_engine_issue w f current target :
  ~ In (channel_issue current target) (issues (analyze_audio_file w f)).
Proof.
  intros H.
  destruct (analysis_issue_kinds _ _ _ _ (analyze_audio_file_analysis w f) H)
    as [Hname | Hengine].
  - revert Hname. apply not_in_filename_issues; discriminate.
  - unfold engine_issue in Hengine.
    destruct Hengine as [[d E] | [[b E] | [[s E] | [E | [E | [e E]]]]]];
      discriminate E.
Qed.

(** X7: after an analysis pass, the report stored for a file of the
    batch is the engine's report of that file, followed by the
    channel-layout issue exactly when the file's layout is not the layout
    of the first file; the first file never gets that issue, and a
    report stored under another path is left as it was. *)
Theorem report_of_each_file (w : World) (self : Processor)
  (first : string) (rest : list string) :
  audio_files self = first :: rest ->
  let target := get_audio_channel_format w first in
  (forall f,
     In f (first :: rest) ->
     dict_get (reports (process_files w self)) f = Some (driver_report w target f)
     /\ ((exists current,
            In (channel_issue current target) (issues (driver_report w target f)))
         <-> get_audio_channel_format w f <> target))
  /\ dict_get (reports (process_files w self)) first
     = Some (analyze_audio_file w first)
  /\ (forall k,
        ~ In k (first :: rest) ->
        dict_get (reports (process_files w self)) k = dict_get (reports self) k).
Proof.
  intros Hfiles target.
  assert (Hrun : process_files w self
                 = fold_left (analyze_step w) (first :: rest)
                     (set_target_channel_format (Some target) self)).
  { unfold process_files, determine_target_channel_format. rewrite Hfiles.
    cbn [fst audio_files set_target_channel_format]. now rewrite Hfiles. }
  assert (Hreport : forall f, In f (first :: rest) ->
            dict_get (reports (process_files w self)) f
            = Some (driver_report w target f)).
  { intros f Hin. rewrite Hrun. now apply analysis_loop_report. }
  split; [| split].
  - intros f Hin. split; [now apply Hreport |].
    unfold driver_report.
    destruct (get_audio_channel_format w f) eqn:Hf; destruct target eqn:Ht;
      cbn [format_eqb negb issues add_issue]; split.
    all: try (intros [current H]; exfalso;
              now apply (channel_issue_not_engine_issue w f current _) in H).
    all: try (intros H; exfalso; now apply H).
    all: try discriminate.
    + intros _. exists Mono. rewrite in_app_iff. right. now left.
    + intros _. exists Stereo. rewrite in_app_iff. right. now left.
  - rewrite Hreport by now left.
    unfold driver_report. fold target. now destruct target.
  - intros k Hnot. rewrite Hrun, analysis_loop_other_report by exact Hnot.
    reflexivity.
Qed.

Lemma report_of_each_file_witness :
  dict_get (reports (process_files studio (set_audio_files studio_files init)))
    "book/02_Chapter_2.mp3"
  = Some (driver_report studio Stereo "book/02_Chapter_2.mp3")
  /\ dict_get (reports (process_files studio (set_audio_files studio_files init)))
       "book/01_Chapter_1.wav"
     = Some (analyze_audio_file studio "book/01_Chapter_1.wav").
Proof.
  destruct (report_of_each_file studio (set_audio_files studio_files init)
              "book/01_Chapter_1.wav" ["book/02_Chapter_2.mp3"%string] eq_refl)
    as (Hall & Hfirst & _).
  split; [| exact Hfirst].
  apply (Hall "book/02_Chapter_2.mp3"). right. now left.
Defined.

Lemma duration_limit_witness :
  existsb is_duration_issue
    (issues (analyze_audio_file long_chapters "book/07_Chapter_7.mp3")) = false
  /\ In (duration_issue long_chapters 150%float)
        (issues (analyze_audio_file long_chapters "book/08_Chapter_8.mp3")).
Proof.
  split.
  - destruct (duration_limit long_chapters "book/07_Chapter_7.mp3" 120%float)
      as (_ & _ & H); [vm_compute; reflexivity |].
    apply H. now left.
  - destruct (duration_limit long_chapters "book/08_Chapter_8.mp3" 150%float)
      as (_ & H & _); [vm_compute; reflexivity |].
    apply H. reflexivity.
Defined.

(** ** The order and number of the reports *)

Lemma NoDup_app_singleton (l : list string) (k : string) :
  NoDup l -> ~ In k l -> NoDup (l ++ [k]).
Proof.
  induction 1 as [| x l Hx Hl IH]; intros Hk; simpl.
  - constructor; [intros [] | constructor].
  - constructor.
    + rewrite in_app_iff. intros [H | [H | []]]; [contradiction |].
      apply Hk. now left.
    + apply IH. intros H. apply Hk. now right.
Qed.

Lemma analyze_step_keys_eq w self f :
  keys (reports (analyze_step w self f))
  = keys (dict_set (reports self) f (analyze_audio_file w f)).
Proof.
  unfold analyze_step. cbn [target_channel_format reports set_reports].
  destruct (target_channel_format self) as [target |];
    [destruct (negb _) |]; cbn [reports set_reports];
    now rewrite ?keys_dict_update.
Qed.

Lemma analysis_loop_NoDup w files self :
  NoDup (keys (reports self)) ->
  NoDup (keys (reports (fold_left (analyze_step w) files self))).
Proof.
  revert self. induction files as [| f files IH]; intros self H; simpl; [exact H |].
  apply IH. rewrite analyze_step_keys_eq.
  destruct (in_dec string_dec f (keys (reports self))) as [Hin | Hnot].
  - now rewrite keys_dict_set_present.
  - rewrite keys_dict_set_new by exact Hnot. now apply NoDup_app_singleton.
Qed.

Lemma analysis_loop_length w files self :
  (List.length (keys (reports (fold_left (analyze_step w) files self)))
   <= List.length (keys (reports self)) + List.length files)%nat.
Proof.
  revert self. induction files as [| f files IH]; intros self; simpl; [lia |].
  specialize (IH (analyze_step w self f)). rewrite analyze_step_keys_eq in IH.
  destruct (in_dec string_dec f (keys (reports self))) as [Hin | Hnot].
  - rewrite keys_dict_set_present in IH by exact Hin. lia.
  - rewrite keys_dict_set_new in IH by exact Hnot.
    rewrite length_app in IH. simpl in IH. lia.
Qed.

Lemma analysis_loop_keys_in_order w files self :
  NoDup (keys (reports self) ++ files) ->
  keys (reports (fold_left (analyze_step w) files self)) = keys (reports self) ++ files.
Proof.
  revert self. induction files as [| f files IH]; intros self H; simpl.
  - now rewrite app_nil_r.
  - assert (Hnot : ~ In f (keys (reports self))).
    { intros Hin. apply NoDup_remove_2 in H. apply H.
      rewrite in_app_iff. now left. }
    rewrite IH; rewrite analyze_step_keys_eq, keys_dict_set_new by exact Hnot.
    + now rewrite <- app_assoc.
    + now rewrite <- app_assoc.
Qed.

(** X8: an analysis pass that starts with no reports leaves one report
    per distinct path of the batch: no path has two reports, there are
    at most as many reports as files, and when no path occurs twice in
    the batch the reports stand in the order of the files (which is the
    order the summary and the written report list them in). *)
Theorem one_report_per_path (w : World) (self : Processor) :
  reports self = [] ->
  NoDup (keys (reports (process_files w self)))
  /\ (List.length (reports (process_files w self)) <= List.length (audio_files self))%nat
  /\ (NoDup (audio_files self) ->
      keys (reports (process_files w self)) = audio_files self).
Proof.
  intros Hempty.
  unfold process_files, determine_target_channel_format.
  destruct (audio_files self) as [| first rest] eqn:Hfiles.
  - rewrite Hempty. repeat split; simpl; constructor.
  - cbn [fst audio_files set_target_channel_format]. rewrite Hfiles.
    set (self0 := set_target_channel_format _ self).
    assert (H0 : keys (reports self0) = []) by (cbn; now rewrite Hempty).
    split; [| split].
    + apply analysis_loop_NoDup. rewrite H0. constructor.
    + pose proof (analysis_loop_length w (first :: rest) self0) as Hlen.
      rewrite H0 in Hlen. unfold keys in Hlen. rewrite length_map in Hlen.
      exact Hlen.
    + intros Hnodup. rewrite analysis_loop_keys_in_order; rewrite H0; auto.
Qed.

Lemma one_report_per_path_witness :
  keys (reports (process_files studio (set_audio_files studio_files init)))
  = studio_files.
Proof.
  apply (one_report_per_path studio (set_audio_files studio_files init)).
  - reflexivity.
  - repeat constructor; simpl; intuition discriminate.
Defined.

(** ** The outcomes of remediation *)

Lemma process_audio_encoded w self f out stdout stderr :
  subprocess_run w (encode_command self f out) = Exits 0 stdout stderr ->
  exists message,
    process_audio w self f out = (true, message, Some (output_path_of f out))
    /\ Py.startswith "Processed audio: " message = true.
Proof.
  unfold process_audio, output_path_of. intros Hrun.
  destruct (output_name f) as [file_name issues_fixed] eqn:Hname.
  rewrite Hrun. cbn [Z.eqb negb fst].
  match goal with
  | |- context [match ?l ++ [?x] with [] => _ | _ :: _ => _ end] =>
      destruct (l ++ [x]) as [| fix1 fixes] eqn:Hfixes;
      [symmetry in Hfixes; now apply app_cons_not_nil in Hfixes |]
  end.
  eexists. split; reflexivity.
Qed.

Lemma process_audio_raised w self f out e :
  subprocess_run w (encode_command self f out) = Raises e ->
  process_audio w self f out = (false, ("Error processing audio: " ++ e)%string, None).
Proof.
  unfold process_audio. intros Hrun.
  destruct (output_name f) as [file_name issues_fixed] eqn:Hname.
  now rewrite Hrun.
Qed.

(** X9: [process_audio] succeeds iff the encoder runs and exits with
    status 0.  It then returns the path it encoded to, in the output
    directory, and a message that starts with "Processed audio: "; in
    every other case it returns no path, with an error message.  The
    message "Audio meets requirements, no processing needed" is never
    returned. *)
Theorem process_audio_outcomes (w : World) (self : Processor) (f out : string) :
  let '(success, message, output_path) := process_audio w self f out in
  (success = true
   <-> exists stdout stderr,
         subprocess_run w (encode_command self f out) = Exits 0 stdout stderr)
  /\ (success = true ->
      output_path = Some (output_path_of f out)
      /\ Py.startswith "Processed audio: " message = true)
  /\ (success = false ->
      output_path = None /\ Py.startswith "Error " message = true)
  /\ message <> "Audio meets requirements, no processing needed"%string.
Proof.
  destruct (subprocess_run w (encode_command self f out))
    as [e | returncode stdout stderr] eqn:Hrun.
  - rewrite (process_audio_raised _ _ _ _ _ Hrun).
    repeat split; try discriminate.
    intros (so & se & H). discriminate H.
  - destruct (Z.eq_dec returncode 0) as [-> | Hcode].
    + destruct (process_audio_encoded _ _ _ _ _ _ Hrun) as (message & -> & Hstart).
      repeat split; try discriminate; try assumption.
      * intros _. now exists stdout, stderr.
      * intros E. rewrite E in Hstart. discriminate Hstart.
    + rewrite (process_audio_encoder_exit _ _ _ _ _ _ _ Hrun Hcode).
      repeat split; try discriminate.
      intros (so & se & H). inversion H. contradiction.
Qed.

Lemma remediate_all_cons w self out f files :
  remediate_all w self out (f :: files)
  = remediate_step w self out [] f ++ remediate_all w self out files.
Proof.
  unfold remediate_all at 1. simpl. apply remediation_loop_from.
Qed.

Lemma remediate_step_encoded w self out f p :
  In p (remediate_step w self out [] f)
  <-> p = output_path_of f out /\ p <> EmptyString
      /\ exists stdout stderr,
           subprocess_run w (encode_command self f out) = Exits 0 stdout stderr.
Proof.
  unfold remediate_step.
  destruct (subprocess_run w (encode_command self f out))
    as [e | returncode stdout stderr] eqn:Hrun.
  - rewrite (process_audio_raised _ _ _ _ _ Hrun). simpl.
    split; [contradiction | intros (_ & _ & so & se & H); discriminate H].
  - destruct (Z.eq_dec returncode 0) as [-> | Hcode].
    + destruct (process_audio_encoded _ _ _ _ _ _ Hrun) as (message & -> & _).
      destruct (String.eqb_spec (output_path_of f out) "") as [Hempty | Hfull]; simpl.
      * split; [contradiction | intros (-> & Hne & _); contradiction].
      * split.
        -- intros [<- | []]. repeat split; [exact Hfull | now exists stdout, stderr].
        -- intros (-> & _ & _). now left.
    + rewrite (process_audio_encoder_exit _ _ _ _ _ _ _ Hrun Hcode). simpl.
      split; [contradiction |].
      intros (_ & _ & so & se & H). inversion H. contradiction.
Qed.

(** X10: the re-analysis set.  A path is among the remediated outputs
    iff it is the non-empty output path of a file of the batch whose
    encoder run exited with status 0; there are at most as many outputs
    as files. *)
Theorem remediated_outputs (w : World) (self : Processor) (out : string)
  (files : list string) :
  (forall p,
     In p (remediate_all w self out files)
     <-> exists f,
           In f files /\ p = output_path_of f out /\ p <> EmptyString
           /\ exists stdout stderr,
                subprocess_run w (encode_command self f out) = Exits 0 stdout stderr)
  /\ (List.length (remediate_all w self out files) <= List.length files)%nat.
Proof.
  induction files as [| f files [IHin IHlen]].
  - split; [| simpl; lia]. intros p. unfold remediate_all. simpl.
    split; [contradiction | intros (f & [] & _)].
  - rewrite remediate_all_cons. split.
    + intros p. rewrite in_app_iff, remediate_step_encoded, IHin. split.
      * intros [(Hp & Hne & Hrun) | (f' & Hin & Hrest)].
        -- exists f. split; [now left | auto].
        -- exists f'. split; [now right | exact Hrest].
      * intros (f' & [<- | Hin] & Hrest); [left; exact Hrest | right; eauto].
    + rewrite length_app. simpl.
      assert (Hstep : (List.length (remediate_step w self out [] f) <= 1)%nat).
      { unfold remediate_step.
        destruct (process_audio w self f out) as [[[|] message] [p |]];
          try destruct (p =? "")%string; simpl; lia. }
      lia.
Qed.

(** ** The written report *)

Lemma compliant_count_le reports :
  (compliant_count reports <= List.length reports)%nat.
Proof. unfold compliant_count. apply filter_length_le. Qed.

(** X11: the detailed report is written iff there is at least one
    report.  Its counts add up (compliant plus non-compliant is the
    total, which is the number of sections and is positive), its
    sections follow the order of the reports and are headed by base
    names, and a section lists issues only for a non-compliant file. *)
Theorem report_counts_add_up (self : Processor) :
  (generate_report self = None <-> reports self = [])
  /\ (forall report,
        generate_report self = Some report ->
        (report_compliant report + report_non_compliant report)%nat = report_total report
        /\ List.length (report_sections report) = report_total report
        /\ (0 < report_total report)%nat
        /\ map section_file (report_sections report)
           = map OsPath.basename (keys (reports self))
        /\ (forall section,
              In section (report_sections report) ->
              section_compliant section = true -> section_issues section = [])).
Proof.
  unfold generate_report.
  destruct (reports self) as [| kv l] eqn:Hreports.
  - split; [split; reflexivity | discriminate].
  - split; [split; discriminate |].
    set (rs := kv :: l). assert (Hrs : rs <> []) by discriminate.
    clearbody rs.
    intros report Hreport. inversion Hreport; subst report; clear Hreport.
    cbn [report_compliant report_non_compliant report_total report_sections].
    pose proof (compliant_count_le rs) as Hle.
    unfold non_compliant_count. repeat split.
    + lia.
    + apply length_map.
    + destruct rs; [contradiction | simpl; lia].
    + unfold keys. rewrite !map_map. reflexivity.
    + intros section Hin Hc. apply in_map_iff in Hin.
      destruct Hin as (kv' & <- & _). unfold file_section in *.
      cbn [section_compliant section_issues] in *. now rewrite Hc.
Qed.

Lemma report_counts_add_up_witness :
  exists report,
    generate_report (process_files studio (set_audio_files studio_files init))
    = Some report
    /\ (report_compliant report + report_non_compliant report)%nat = 2%nat.
Proof.
  destruct (generate_report (process_files studio (set_audio_files studio_files init)))
    as [report |] eqn:Hreport; [| vm_compute in Hreport; discriminate].
  exists report. split; [reflexivity |].
  destruct (report_counts_add_up
              (process_files studio (set_audio_files studio_files init)))
    as [_ Hsome].
  destruct (Hsome report Hreport) as (Hsum & _).
  rewrite Hsum. vm_compute in Hreport. inversion Hreport. reflexivity.
Defined.

(** ** Discovery *)

Lemma try_directory_accepts fs answer directory files :
  try_directory fs answer = Some (directory, files) ->
  directory = Py.strip answer
  /\ isdir fs directory = true
  /\ files = glob fs (OsPath.join directory "*.mp3")
             ++ glob fs (OsPath.join directory "*.wav")
  /\ files <> [].
Proof.
  unfold try_directory. cbv zeta.
  destruct (isdir fs (Py.strip answer)) eqn:Hdir; [| discriminate].
  destruct (_ ++ _) as [| f fs'] eqn:Hfiles; [discriminate |].
  intros H; inversion H; subst.
  repeat split; try assumption; try reflexivity; try (now symmetry); discriminate.
Qed.

(** X12: [get_input_directory] accepts the first line the user types
    whose stripped text is a directory holding at least one [*.mp3] or
    [*.wav] file, and asks again for every line before it.  On return
    the batch is never empty and lists the MP3 files before the WAV
    files, nothing else of the state has changed, and so the channel
    policy of the analysis pass is the layout of the first MP3 file
    whenever the directory holds one. *)
Theorem accepted_directory (fs : FileSystem) (answers : list string)
  (self self' : Processor) (directory : string) :
  get_input_directory fs answers self = Some (self', directory) ->
  (exists before answer after,
     answers = before ++ answer :: after
     /\ Forall (fun a => try_directory fs a = None) before
     /\ directory = Py.strip answer)
  /\ isdir fs directory = true
  /\ audio_files self' = glob fs (OsPath.join directory "*.mp3")
                         ++ glob fs (OsPath.join directory "*.wav")
  /\ audio_files self' <> []
  /\ reports self' = reports self
  /\ target_channel_format self' = target_channel_format self
  /\ (forall w mp3 others,
        glob fs (OsPath.join directory "*.mp3") = mp3 :: others ->
        target_channel_format (process_files w self')
        = Some (get_audio_channel_format w mp3)).
Proof.
  revert self' directory.
  induction answers as [| answer answers IH]; intros self' directory Hrun;
    simpl in Hrun; [discriminate |].
  destruct (try_directory fs answer) as [[d files] |] eqn:Htry.
  - inversion Hrun; subst self' directory; clear Hrun.
    destruct (try_directory_accepts _ _ _ _ Htry) as (Hd & Hdir & Hfiles & Hne).
    cbn [audio_files reports target_channel_format set_audio_files].
    split; [exists [], answer, answers; repeat split; [constructor | exact Hd] |].
    repeat split; try assumption.
    intros w mp3 others Hmp3.
    apply process_files_target with (rest := others ++ glob fs (OsPath.join d "*.wav")).
    cbn [audio_files set_audio_files]. now rewrite Hfiles, Hmp3.
  - destruct (IH _ _ Hrun) as ((before & a & after & -> & Hall & Hd) & Hrest).
    split; [| exact Hrest].
    exists (answer :: before), a, after. repeat split; [| exact Hd].
    now constructor.
Qed.

Lemma accepted_directory_witness :
  exists self',
    get_input_directory shelf ["nowhere"%string; " book "%string] init
    = Some (self', "book"%string)
    /\ audio_files self' = ["book/02_Chapter_2.mp3"%string; "book/01_Chapter_1.wav"%string]
    /\ target_channel_format (process_files studio self') = Some Mono.
Proof.
  destruct (get_input_directory shelf ["nowhere"%string; " book "%string] init)
    as [[self' directory] |] eqn:Hrun; [| vm_compute in Hrun; discriminate].
  assert (Hd : directory = "book"%string).
  { assert (H : option_map snd
                  (get_input_directory shelf ["nowhere"%string; " book "%string] init)
                = Some "book"%string) by (vm_compute; reflexivity).
    rewrite Hrun in H. now inversion H. }
  subst directory. exists self'. split; [reflexivity |].
  destruct (accepted_directory _ _ _ _ _ Hrun)
    as (_ & _ & Hfiles & _ & _ & _ & Hpolicy).
  split; [exact Hfiles |].
  rewrite (Hpolicy studio "book/02_Chapter_2.mp3" [] eq_refl). reflexivity.
Defined.

(** ** The choice of a file to visualize *)


(** ** The track number of a file *)














(** ** The names of the outputs *)

Lemma has_char_app ch a b :
  has_char ch (a ++ b)%string = has_char ch a || has_char ch b.
Proof.
  induction a as [| c a IH]; simpl; [reflexivity |].
  now rewrite IH, orb_assoc.
Qed.

Lemma rpartition_absent ch s : has_char ch s = false -> OsPath.rpartition ch s = None.
Proof.
  induction s as [| c s IH]; simpl; [reflexivity |].
  intros H. apply orb_false_iff in H as [Hc Hs]. now rewrite (IH Hs), Hc.
Qed.

Lemma rpartition_last ch a b :
  has_char ch b = false ->
  OsPath.rpartition ch (a ++ String ch b)%string = Some (a, b).
Proof.
  intros Hb. induction a as [| c a IH]; simpl.
  - now rewrite (rpartition_absent _ _ Hb), Ascii.eqb_refl.
  - now rewrite IH.
Qed.

Lemma basename_in_directory dir name :
  has_char "/" name = false ->
  OsPath.basename (dir ++ String "/" name)%string = name.
Proof.
  intros H. unfold OsPath.basename. now rewrite (rpartition_last _ _ _ H).
Qed.

Lemma splitext_stem_ext stem ext :
  has_char "/" stem = false ->
  has_char "/" ext = false ->
  has_char "." ext = false ->
  OsPath.all_char "." stem = false ->
  OsPath.splitext (stem ++ String "." ext)%string = (stem, String "." ext).
Proof.
  intros Hs He Hd Hstem. unfold OsPath.splitext.
  rewrite rpartition_absent by (rewrite has_char_app; simpl; now rewrite Hs, He).
  now rewrite (rpartition_last _ _ _ Hd), Hstem.
Qed.

Lemma lower_extension ext target :
  Py.lower ext = target ->
  has_char "/" target = false -> has_char "." target = false ->
  has_char "/" ext = false /\ has_char "." ext = false.
Proof.
  revert target. induction ext as [| c ext IH]; intros target Hl Hs Hd.
  - now split.
  - simpl in Hl. subst target. simpl in Hs, Hd.
    apply orb_false_iff in Hs as [Hs1 Hs2]. apply orb_false_iff in Hd as [Hd1 Hd2].
    destruct (IH _ eq_refl Hs2 Hd2) as [Is Id]. simpl. rewrite Is, Id.
    split; rewrite orb_false_r.
    + destruct (Ascii.eqb_spec c "/") as [-> | Hne]; [| reflexivity].
      exact Hs1.
    + destruct (Ascii.eqb_spec c ".") as [-> | Hne]; [| reflexivity].
      exact Hd1.
Qed.

(** X15: a WAV file is encoded to the MP3 name of its stem, whatever the
    letter case of its extension, so in one directory [stem.wav] and
    [stem.mp3] are encoded to the same output path: the encoder, run
    with [-y], writes that file twice. *)
Theorem wav_and_mp3_share_an_output (dir stem ext out : string) :
  has_char "/" stem = false ->
  OsPath.all_char "." stem = false ->
  Py.lower ext = "wav"%string ->
  output_path_of (dir ++ String "/" (stem ++ String "." ext))%string out
  = OsPath.join out (stem ++ ".mp3")%string
  /\ output_path_of (dir ++ String "/" (stem ++ ".mp3"))%string out
     = OsPath.join out (stem ++ ".mp3")%string.
Proof.
  intros Hs Hstem Hext.
  destruct (lower_extension ext "wav" Hext eq_refl eq_refl) as [Hes Hed].
  unfold output_path_of, output_name. split.
  - rewrite basename_in_directory
      by (rewrite has_char_app; simpl; now rewrite Hs, Hes).
    rewrite (splitext_stem_ext stem ext Hs Hes Hed Hstem).
    cbn [fst snd Py.lower]. rewrite Hext. reflexivity.
  - rewrite basename_in_directory
      by (rewrite has_char_app; simpl; now rewrite Hs).
    rewrite (splitext_stem_ext stem "mp3" Hs eq_refl eq_refl Hstem).
    reflexivity.
Qed.

Lemma wav_and_mp3_share_an_output_witness :
  output_path_of "book/01_Chapter_1.WAV" "book/book_master"
  = output_path_of "book/01_Chapter_1.mp3" "book/book_master".
Proof.
  destruct (wav_and_mp3_share_an_output "book" "01_Chapter_1" "WAV" "book/book_master"
              eq_refl eq_refl eq_refl) as [Hwav Hmp3].
  exact (eq_trans Hwav (eq_sym Hmp3)).
Defined.

(** ** The default output directory *)

Lemma rpartition_parts ch s :
  match OsPath.rpartition ch s with
  | Some (a, b) => s = (a ++ String ch b)%string /\ has_char ch b = false
  | None => has_char ch s = false
  end.
Proof.
  induction s as [| c s IH]; simpl; [reflexivity |].
  destruct (OsPath.rpartition ch s) as [[a b] |].
  - destruct IH as [-> Hb]. now split.
  - destruct (Ascii.eqb_spec c ch) as [-> | Hne]; simpl.
    + now split.
    + exact IH.
Qed.

Lemma basename_has_no_separator p : has_char "/" (OsPath.basename p) = false.
Proof.
  unfold OsPath.basename. pose proof (rpartition_parts "/" p) as H.
  destruct (OsPath.rpartition "/" p) as [[a b] |]; [apply H | exact H].
Qed.

Lemma output_name_has_no_separator p : has_char "/" (fst (output_name p)) = false.
Proof.
  unfold output_name. pose proof (basename_has_no_separator p) as Hname.
  destruct (_ =? ".wav")%string; cbn [fst]; [| exact Hname].
  unfold OsPath.splitext.
  pose proof (rpartition_parts "/" (OsPath.basename p)) as Hsep.
  destruct (OsPath.rpartition "/" (OsPath.basename p)) as [[a b] |].
  - destruct Hsep as [E _]. rewrite E, has_char_app in Hname. simpl in Hname.
    now rewrite orb_true_r in Hname.
  - pose proof (rpartition_parts "." (OsPath.basename p)) as Hdot.
    destruct (OsPath.rpartition "." (OsPath.basename p)) as [[stem ext] |].
    + destruct Hdot as [E _].
      assert (Hstem : has_char "/" stem = false).
      { rewrite E, has_char_app in Hname. now apply orb_false_iff in Hname. }
      destruct (OsPath.all_char "." stem); cbn [fst];
        rewrite has_char_app; simpl; [now rewrite Hname | now rewrite Hstem].
    + cbn [fst]. rewrite has_char_app. simpl. now rewrite Hname.
Qed.

Lemma startswith_separator s : has_char "/" s = false -> Py.startswith "/" s = false.
Proof.
  destruct s as [| c s]; [reflexivity |]. cbn [Py.startswith has_char].
  intros H. apply orb_false_iff in H as [Hc _].
  rewrite Ascii.eqb_sym, Hc. reflexivity.
Qed.

Lemma endswith_separator_cons c s :
  s <> EmptyString -> Py.endswith "/" (String c s) = Py.endswith "/" s.
Proof.
  intros Hs.
  change (Py.endswith "/" (String c s))
    with ((String c s =? "/")%string || Py.endswith "/" s).
  destruct (String.eqb_spec (String c s) "/") as [E | _]; [| reflexivity].
  inversion E. contradiction.
Qed.

Lemma rstrip_separator dir :
  dir <> EmptyString -> Py.endswith "/" dir = false ->
  OsPath.rstrip_char "/" (dir ++ "/")%string = dir
  /\ OsPath.all_char "/" (dir ++ "/")%string = false.
Proof.
  induction dir as [| c dir IH]; [contradiction |]. intros _ Hend.
  destruct dir as [| c' dir'].
  - destruct (Ascii.eqb_spec c "/") as [-> | Hne]; [discriminate Hend |].
    apply Ascii.eqb_neq in Hne.
    cbn [append OsPath.rstrip_char OsPath.all_char].
    now rewrite Ascii.eqb_refl, Hne.
  - rewrite endswith_separator_cons in Hend by discriminate.
    destruct (IH ltac:(discriminate) Hend) as [Hstrip Hall].
    change ((String c (String c' dir') ++ "/")%string)
      with (String c (String c' dir' ++ "/")%string).
    cbn [OsPath.rstrip_char OsPath.all_char]. rewrite Hstrip, Hall.
    now rewrite andb_false_r.
Qed.

Lemma dirname_in_directory dir name :
  dir <> EmptyString -> Py.endswith "/" dir = false ->
  has_char "/" name = false ->
  OsPath.dirname (dir ++ String "/" name)%string = dir.
Proof.
  intros Hdir Hend Hname. unfold OsPath.dirname.
  rewrite (rpartition_last _ _ _ Hname).
  destruct (rstrip_separator dir Hdir Hend) as [Hstrip Hall].
  cbv zeta. now rewrite Hall.
Qed.

Lemma join_plain a b :
  a <> EmptyString -> Py.endswith "/" a = false -> has_char "/" b = false ->
  OsPath.join a b = (a ++ String "/" b)%string.
Proof.
  intros Ha Hend Hb. unfold OsPath.join.
  rewrite (startswith_separator _ Hb), Hend.
  destruct (String.eqb_spec a ""); [contradiction | reflexivity].
Qed.

Lemma append_master_plain b :
  has_char "/" b = false ->
  forall a,
    (a ++ String "/" (b ++ "_master"))%string <> EmptyString
    /\ Py.endswith "/" (a ++ String "/" (b ++ "_master"))%string = false.
Proof.
  intros Hb.
  assert (Htail : forall s, (s ++ "_master")%string <> EmptyString)
    by (intros [| c s]; discriminate).
  assert (Hend : Py.endswith "/" (b ++ "_master")%string = false).
  { induction b as [| c b IH]; [reflexivity |].
    simpl in Hb. apply orb_false_iff in Hb as [_ Hb].
    change ((String c b ++ "_master")%string) with (String c (b ++ "_master")%string).
    rewrite endswith_separator_cons by apply Htail. now apply IH. }
  induction a as [| c a [IH1 IH2]].
  - split; [discriminate |]. simpl (_ ++ _)%string.
    now rewrite endswith_separator_cons by apply Htail.
  - split; [discriminate |].
    change ((String c a ++ String "/" (b ++ "_master"))%string)
      with (String c (a ++ String "/" (b ++ "_master"))%string).
    now rewrite endswith_separator_cons by exact IH1.
Qed.

Lemma append_cancel (a b c : string) : (a ++ b)%string = (a ++ c)%string -> b = c.
Proof.
  induction a as [| x a IH]; simpl; [tauto |]. intros H. inversion H. now apply IH.
Qed.

Lemma append_assoc (a b c : string) :
  ((a ++ b) ++ c)%string = (a ++ (b ++ c))%string.
Proof. induction a as [| x a IH]; simpl; [reflexivity | now rewrite IH]. Qed.

(** X16: with the default output directory, derived from the first file
    of a batch found in a directory [dir], every file of that directory
    is encoded to a path inside [dir/<base name of dir>_master], and that
    path is never the path of a file of [dir]: no input is overwritten. *)
Theorem default_output_is_apart (dir first name other : string) :
  dir <> EmptyString ->
  Py.endswith "/" dir = false ->
  has_char "/" first = false ->
  has_char "/" name = false ->
  has_char "/" other = false ->
  let out := default_output_dir (dir ++ String "/" first)%string in
  out = (dir ++ String "/" (OsPath.basename dir ++ "_master"))%string
  /\ output_path_of (dir ++ String "/" name)%string out
     = (out ++ String "/" (fst (output_name (dir ++ String "/" name))))%string
  /\ output_path_of (dir ++ String "/" name)%string out
     <> (dir ++ String "/" other)%string.
Proof.
  intros Hdir Hend Hfirst Hname Hother out.
  pose proof (basename_has_no_separator dir) as Hbase.
  assert (Hmaster : has_char "/" (OsPath.basename dir ++ "_master")%string = false)
    by (rewrite has_char_app, Hbase; reflexivity).
  assert (Hout : out = (dir ++ String "/" (OsPath.basename dir ++ "_master"))%string).
  { unfold out, default_output_dir. cbv zeta.
    rewrite (dirname_in_directory _ _ Hdir Hend Hfirst).
    now apply join_plain. }
  destruct (append_master_plain _ Hbase dir) as [Hne Hendout].
  pose proof (output_name_has_no_separator (dir ++ String "/" name)%string) as Hfile.
  assert (Hpath : output_path_of (dir ++ String "/" name)%string out
                  = (out ++ String "/" (fst (output_name (dir ++ String "/" name))))%string).
  { unfold output_path_of. rewrite Hout. now apply join_plain. }
  split; [exact Hout |]. split; [exact Hpath |].
  rewrite Hpath, Hout, append_assoc. intros E. apply append_cancel in E.
  inversion E as [E'].
  assert (Hslash : has_char "/" other = true).
  { rewrite <- E', !has_char_app. simpl. now rewrite !orb_true_r. }
  congruence.
Qed.

Lemma default_output_is_apart_witness :
  output_path_of "book/01_Chapter_1.wav" (default_output_dir "book/01_Chapter_1.wav")
  = "book/book_master/01_Chapter_1.mp3"%string
  /\ output_path_of "book/01_Chapter_1.wav" (default_output_dir "book/01_Chapter_1.wav")
     <> "book/01_Chapter_1.wav"%string.
Proof.
  destruct (default_output_is_apart "book" "01_Chapter_1.wav" "01_Chapter_1.wav"
              "01_Chapter_1.wav" ltac:(discriminate) eq_refl eq_refl eq_refl eq_refl)
    as (_ & Hpath & Hapart).
  split; [reflexivity | exact Hapart].
Defined.

Lemma process_audio_outcomes_witness :
  snd (process_audio studio init "book/01_Chapter_1.wav" "book/book_master")
  = Some "book/book_master/01_Chapter_1.mp3"%string.
Proof.
  pose proof (process_audio_outcomes studio init "book/01_Chapter_1.wav"
                "book/book_master") as H.
  destruct (process_audio studio init "book/01_Chapter_1.wav" "book/book_master")
    as [[success message] path] eqn:E.
  destruct H as (Hiff & Hsuccess & _).
  assert (Hs : success = true).
  { apply Hiff. exists EmptyString, EmptyString. vm_compute. reflexivity. }
  destruct (Hsuccess Hs) as [-> _]. reflexivity.
Defined.
